(** * Blackhole AODV: trust ledger, forwarding decision and telemetry

    A shallow embedding of the two [BlackholeAodv] routing modules of the
    simulation: the trust-mitigated one (Mitigation/blackhole-aodv.cc) and the
    plain attacker (the unmitigated blackhole-aodv.cc).

    Modelling choices, all taken from the C++ source:
    - [double] is IEEE-754 binary64: Rocq's primitive [float], whose
      operations are specified by [SpecFloat] (round to nearest, ties to even);
    - [std::map<uint32_t,double>] is a [gmap N float], [std::set<uint32_t>] a
      [gset N]; iteration over either goes by ascending key;
    - [uint32_t] counters are [N] with the wrap-around written out;
    - the uniform random variable is a tape of draws with a read position;
    - the host's [Ipv4] object is a record of the functions [RouteInput]
      calls on it, the callbacks are reduced to their null test, and the call
      a decision makes on a callback is part of the result;
    - the function-local [static bool headerWritten] of [LogTrustScores] and
      the log file form the state of the process, shared by all instances. *)

From Stdlib Require Import Floats ZArith NArith List String.
From stdpp Require Import gmap sorting.

Set Warnings "-inexact-float".

Local Open Scope N_scope.

(** ** Machine types *)

Definition uint32_modulus : N := 2 ^ 32.

(** [x++] on a [uint32_t]. *)
Definition uint32_incr (x : N) : N := (x + 1) mod uint32_modulus.

(** [static_cast<uint32_t>(i)] of an [int32_t]. *)
Definition uint32_of_int32 (i : Z) : N := Z.to_N (i mod 2 ^ 32)%Z.

(** [std::clamp(v, lo, hi)]: [(v < lo) ? lo : (hi < v) ? hi : v]. *)
Definition clamp (v lo hi : float) : float :=
  if (v <? lo)%float then lo else if (hi <? v)%float then hi else v.

(** [x] lies in the closed interval [0.0, 1.0], by the comparisons of
    binary64 (which a NaN fails). *)
Definition in_unit (x : float) : bool := ((0.0 <=? x) && (x <=? 1.0))%float.

(** [r] is a value a uniform generator on [0.0, 1.0) can give. *)
Definition is_draw (r : float) : bool := ((0.0 <=? r) && (r <? 1.0))%float.

(** ** The host stack, as far as the module looks at it *)

(** Node ids and addresses are [uint32_t]; devices and packets are opaque
    to the module and are told apart by a number. *)
Abbreviation NodeId := N (only parsing).
Abbreviation Ipv4Address := N (only parsing).
Abbreviation NetDevice := N (only parsing).
Abbreviation Packet := N (only parsing).

Record Ipv4Header := {
  GetSource : Ipv4Address;
  GetDestination : Ipv4Address
}.

Record Ipv4 := {
  GetInterfaceForDevice : NetDevice -> Z;
  IsDestinationAddress : Ipv4Address -> N -> bool;
  GetLocal : N -> Ipv4Address;
  GetNetDevice : N -> NetDevice
}.

Record Ipv4Route := {
  route_destination : Ipv4Address;
  route_source : Ipv4Address;
  route_output_device : NetDevice
}.

(** A callback is known by whether it is null. *)
Record Callback := { IsNull : bool }.

(** The call a decision makes on one of the host's callbacks. *)
Inductive CallbackCall :=
| LocalDeliver (packet : Packet) (header : Ipv4Header) (iface : N)
| UnicastForward (route : Ipv4Route) (packet : Packet) (header : Ipv4Header).

Record RouteResult := {
  returned : bool;
  invoked : option CallbackCall
}.

(** [UniformRandomVariable] with Min = 0.0 and Max = 1.0: the draws it will
    give, and how many were taken. *)
Record UniformRandomVariable := {
  rv_tape : nat -> float;
  rv_pos : nat
}.

Definition GetValue (rv : UniformRandomVariable) : float * UniformRandomVariable :=
  (rv_tape rv (rv_pos rv), {| rv_tape := rv_tape rv; rv_pos := S (rv_pos rv) |}).

(** ** Telemetry log *)

Definition header_text : string := "Time,NodeID,TrustScore".

(** One line of trust_scores.csv. The numbers of a data row are kept as
    values; their decimal rendering by [operator<<] is not modelled. *)
Inductive csv_line :=
| Literal (text : string)
| ScoreRow (time : float) (node : NodeId) (score : float)
| BlacklistRow (time : float) (node : NodeId).

Definition is_header (l : csv_line) : bool :=
  match l with
  | Literal t => String.eqb t header_text
  | _ => false
  end.

(** What all instances of one process share. *)
Record Process := {
  headerWritten : bool;
  trust_scores_csv : list csv_line
}.

Definition process_start (file : list csv_line) : Process :=
  {| headerWritten := false; trust_scores_csv := file |}.

(** What [RouteOutput] leaves in its [sockerr] argument. *)
Inductive SocketErrno :=
| ERROR_NOTERROR
| ERROR_NOROUTETOHOST.

(** The simulator's answer to [Simulator::Schedule(delay, ...)]: an event
    that many time units ahead. *)
Record Scheduled := { delay : Z }.

(** ** The trust-mitigated module (Mitigation/blackhole-aodv.cc) *)

Module Mitigation.

Definition TRUST_THRESHOLD : float := 0.3.
Definition RECOVERY_THRESHOLD : float := 0.6.
Definition ADAPTIVE_DROP_RATE : float := 0.05.

Record BlackholeAodv := {
  m_ipv4 : option Ipv4;
  m_randomVar : UniformRandomVariable;
  trustScores : gmap N float;
  blacklistedNodes : gset N;
  totalDroppedPackets : N;
  totalForwardedPackets : N;
  dropProbability : float
}.

(** The constructor; [m_ipv4] starts null. *)
Definition new (rv : UniformRandomVariable) : BlackholeAodv :=
  {| m_ipv4 := None;
     m_randomVar := rv;
     trustScores := ∅;
     blacklistedNodes := ∅;
     totalDroppedPackets := 0;
     totalForwardedPackets := 0;
     dropProbability := 0.05 |}.

Definition SetIpv4 (this : BlackholeAodv) (ipv4 : option Ipv4) : BlackholeAodv :=
  {| m_ipv4 := ipv4;
     m_randomVar := m_randomVar this;
     trustScores := trustScores this;
     blacklistedNodes := blacklistedNodes this;
     totalDroppedPackets := totalDroppedPackets this;
     totalForwardedPackets := totalForwardedPackets this;
     dropProbability := dropProbability this |}.

Definition SetDropProbability (this : BlackholeAodv) (probability : float) : BlackholeAodv :=
  if ((probability <? 0.0) || (1.0 <? probability))%float then this
  else
    {| m_ipv4 := m_ipv4 this;
       m_randomVar := m_randomVar this;
       trustScores := trustScores this;
       blacklistedNodes := blacklistedNodes this;
       totalDroppedPackets := totalDroppedPackets this;
       totalForwardedPackets := totalForwardedPackets this;
       dropProbability := probability |}.

Definition set_ledger (this : BlackholeAodv) (ts : gmap N float) (bl : gset N) : BlackholeAodv :=
  {| m_ipv4 := m_ipv4 this;
     m_randomVar := m_randomVar this;
     trustScores := ts;
     blacklistedNodes := bl;
     totalDroppedPackets := totalDroppedPackets this;
     totalForwardedPackets := totalForwardedPackets this;
     dropProbability := dropProbability this |}.

Definition set_randomVar (this : BlackholeAodv) (rv : UniformRandomVariable) : BlackholeAodv :=
  {| m_ipv4 := m_ipv4 this;
     m_randomVar := rv;
     trustScores := trustScores this;
     blacklistedNodes := blacklistedNodes this;
     totalDroppedPackets := totalDroppedPackets this;
     totalForwardedPackets := totalForwardedPackets this;
     dropProbability := dropProbability this |}.

Definition set_counters (this : BlackholeAodv) (dropped forwarded : N) : BlackholeAodv :=
  {| m_ipv4 := m_ipv4 this;
     m_randomVar := m_randomVar this;
     trustScores := trustScores this;
     blacklistedNodes := blacklistedNodes this;
     totalDroppedPackets := dropped;
     totalForwardedPackets := forwarded;
     dropProbability := dropProbability this |}.

(** [for (i = 0; i < totalNodes; ++i) trustScores[i] = 1.0]. *)
Definition InitializeTrustScores (this : BlackholeAodv) (totalNodes : N) : BlackholeAodv :=
  set_ledger this
    (foldl (fun ts i => <[N.of_nat i := 1.0%float]> ts) (trustScores this)
       (seq 0 (N.to_nat totalNodes)))
    (blacklistedNodes this).

Definition GetTrustScore (this : BlackholeAodv) (nodeId : N) : float :=
  match trustScores this !! nodeId with
  | Some s => s
  | None => 1.0%float
  end.

Definition change (dropped : bool) : float :=
  if dropped then (-0.2)%float else 0.1%float.

(** [trustScores[nodeId]] read as a value: [operator[]] of [std::map], which
    gives a value-initialised 0.0 for a key that is absent. *)
Definition subscript (ts : gmap N float) (nodeId : N) : float :=
  default 0.0%float (ts !! nodeId).

(** Lines 158-166: the blacklist once [score] is the stored score of
    [nodeId]. [insert] and [erase] of [std::set] do nothing on a member,
    respectively a non-member. *)
Definition update_blacklist (score : float) (nodeId : N) (bl : gset N) : gset N :=
  if (score <? TRUST_THRESHOLD)%float then {[nodeId]} ∪ bl
  else if (RECOVERY_THRESHOLD <=? score)%float then bl ∖ {[nodeId]}
  else bl.

Definition UpdateTrustScore (this : BlackholeAodv) (nodeId : N) (dropped : bool) : BlackholeAodv :=
  let ts0 := trustScores this in
  let ts1 := match ts0 !! nodeId with
             | None => <[nodeId := 1.0%float]> ts0
             | Some _ => ts0
             end in
  let ts2 := <[nodeId := (subscript ts1 nodeId + change dropped)%float]> ts1 in
  let ts3 := <[nodeId := clamp (subscript ts2 nodeId) 0.0 1.0]> ts2 in
  set_ledger this ts3
    (update_blacklist (subscript ts3 nodeId) nodeId (blacklistedNodes this)).

(** [return false] with no callback invoked. *)
Definition drop : RouteResult := {| returned := false; invoked := None |}.

(** Lines 104-113 of [RouteInput]: the blacklist check. [inl] is the
    [return false] of the drop branch, [inr] falls through to the rest of the
    function; the generator is read only for a blacklisted destination. *)
Definition blacklist_check (this : BlackholeAodv) (destNodeId : N) : BlackholeAodv + BlackholeAodv :=
  if decide (destNodeId ∈ blacklistedNodes this) then
    let (r, rv) := GetValue (m_randomVar this) in
    let this1 := set_randomVar this rv in
    if (r <? dropProbability this1)%float then
      inl (UpdateTrustScore
             (set_counters this1 (uint32_incr (totalDroppedPackets this1))
                (totalForwardedPackets this1))
             destNodeId true)
    else inr this1
  else inr this.

(** Lines 115-143 of [RouteInput]: local delivery, else forwarding. *)
Definition deliver_or_forward (this : BlackholeAodv) (ipv4 : Ipv4) (interfaceIndex : Z)
    (packet : Packet) (header : Ipv4Header) (ucb lcb : Callback) : RouteResult * BlackholeAodv :=
  let destNodeId := GetDestination header in
  let iface := uint32_of_int32 interfaceIndex in
  if IsDestinationAddress ipv4 (GetDestination header) iface then
    if negb (IsNull lcb) then
      ({| returned := true; invoked := Some (LocalDeliver packet header iface) |}, this)
    else (drop, this)
  else
    let this1 :=
      UpdateTrustScore
        (set_counters this (totalDroppedPackets this) (uint32_incr (totalForwardedPackets this)))
        destNodeId false in
    if negb (IsNull ucb) then
      let route := {| route_destination := GetDestination header;
                      route_source := GetLocal ipv4 iface;
                      route_output_device := GetNetDevice ipv4 iface |} in
      ({| returned := true; invoked := Some (UnicastForward route packet header) |}, this1)
    else (drop, this1).

Definition RouteInput (this : BlackholeAodv) (packet : Packet) (header : Ipv4Header)
    (device : NetDevice) (ucb lcb : Callback) : RouteResult * BlackholeAodv :=
  let destNodeId := GetDestination header in
  match m_ipv4 this with
  | None => (drop, this)
  | Some ipv4 =>
    let interfaceIndex := GetInterfaceForDevice ipv4 device in
    if (interfaceIndex =? -1)%Z then (drop, this)
    else
      match blacklist_check this destNodeId with
      | inl this' => (drop, this')
      | inr this' => deliver_or_forward this' ipv4 interfaceIndex packet header ucb lcb
      end
  end.

(** The order of the keys of [std::map<uint32_t,double>]. *)
Definition key_le (x y : N * float) : Prop := x.1 ≤ y.1.

#[export] Instance key_le_dec : RelDecision key_le.
Proof. intros x y. unfold key_le. apply _. Defined.

(** The rows of one export, by ascending node id as [std::map] and
    [std::set] iterate. *)
Definition score_rows (now : float) (ts : gmap N float) : list csv_line :=
  (fun e => ScoreRow now e.1 e.2) <$> merge_sort key_le (map_to_list ts).

Definition blacklist_rows (now : float) (bl : gset N) : list csv_line :=
  BlacklistRow now <$> merge_sort N.le (elements bl).

(** [LogTrustScores() const]: [is_open] is what [trustLog.is_open()] gives
    after opening the file for appending, [now] is [Simulator::Now()]. *)
Definition LogTrustScores (this : BlackholeAodv) (now : float) (is_open : bool)
    (p : Process) : Process :=
  if negb is_open then p
  else
    let header := if headerWritten p then [] else [Literal header_text] in
    {| headerWritten := true;
       trust_scores_csv :=
         trust_scores_csv p ++ header
           ++ score_rows now (trustScores this)
           ++ blacklist_rows now (blacklistedNodes this) |}.

(** One export invocation: the instance it is called on, the time, and
    whether the file opens. *)
Record Export := {
  exp_instance : BlackholeAodv;
  exp_now : float;
  exp_open : bool
}.

Definition run_export (p : Process) (e : Export) : Process :=
  LogTrustScores (exp_instance e) (exp_now e) (exp_open e) p.

Definition run_exports (p : Process) (es : list Export) : Process :=
  foldl run_export p es.

(** The data rows an export appends when its file opens: one per ledger
    entry, then one per blacklisted node. *)
Definition data_rows (e : Export) : list csv_line :=
  if exp_open e then
    score_rows (exp_now e) (trustScores (exp_instance e))
      ++ blacklist_rows (exp_now e) (blacklistedNodes (exp_instance e))
  else [].

(** A call of [UpdateTrustScore], and a run of such calls. *)
Record Update := {
  upd_node : N;
  upd_dropped : bool
}.

Definition run_updates (this : BlackholeAodv) (us : list Update) : BlackholeAodv :=
  foldl (fun st u => UpdateTrustScore st (upd_node u) (upd_dropped u)) this us.

(** The module after construction and at most one [InitializeTrustScores]. *)
Definition started (rv : UniformRandomVariable) (init : option N) : BlackholeAodv :=
  match init with
  | None => new rv
  | Some totalNodes => InitializeTrustScores (new rv) totalNodes
  end.

(** The blacklist of [nodeId] along a sequence of stored scores, from an
    empty blacklist. *)
Definition blacklist_along (nodeId : N) (scores : list float) : gset N :=
  foldl (fun bl score => update_blacklist score nodeId bl) ∅ scores.

(** Every stored score is in [0.0, 1.0]. *)
Definition scores_in_unit (this : BlackholeAodv) : Prop :=
  forall n s, trustScores this !! n = Some s -> in_unit s = true.

(** The blacklist lies between the two thresholds: a blacklisted node has a
    stored score below the recovery threshold, and a stored score below the
    trust threshold belongs to a blacklisted node. *)
Definition sandwiched (this : BlackholeAodv) : Prop :=
  (forall n, n ∈ blacklistedNodes this ->
     exists s, trustScores this !! n = Some s /\ (s <? RECOVERY_THRESHOLD)%float = true)
  /\ (forall n s, trustScores this !! n = Some s ->
       (s <? TRUST_THRESHOLD)%float = true -> n ∈ blacklistedNodes this).

(** [k] calls [UpdateTrustScore(nodeId, dropped)] in a row. *)
Definition repeated (k : nat) (nodeId : N) (dropped : bool) : list Update :=
  replicate k {| upd_node := nodeId; upd_dropped := dropped |}.

(** [RouteOutput]: no route, [sockerr = ERROR_NOROUTETOHOST]; the module is
    not touched. *)
Definition RouteOutput (this : BlackholeAodv) (packet : Packet) (header : Ipv4Header)
    (oif : NetDevice) : option Ipv4Route * SocketErrno :=
  (None, ERROR_NOROUTETOHOST).

(** [PeriodicTrustLogging(nodeContainer, interval)]: one line to test_log.txt
    if that file opens, then [LogTrustScores] on every node of the container
    that carries a module, then the next round is scheduled. A node is the
    module aggregated to it, if any; [test_open] and [trust_open i] say
    whether test_log.txt and, for node [i], trust_scores.csv open. The test
    log is kept as the times written to it. *)
Definition PeriodicTrustLogging (nodeContainer : list (option BlackholeAodv)) (interval : Z)
    (now : float) (test_open : bool) (trust_open : nat -> bool)
    (files : list float * Process) : list float * Process * Scheduled :=
  let testLog := if test_open then files.1 ++ [now] else files.1 in
  let p :=
    foldl (fun p node =>
             match node.2 with
             | Some blackholeRouting =>
               LogTrustScores blackholeRouting now (trust_open node.1) p
             | None => p
             end)
      files.2 (imap (fun i node => (i, node)) nodeContainer) in
  (testLog, p, {| delay := interval |}).

(** The exports one round of [PeriodicTrustLogging] makes. *)
Definition round_exports (nodeContainer : list (option BlackholeAodv)) (now : float)
    (trust_open : nat -> bool) : list Export :=
  omap (fun node =>
          match node.2 with
          | Some blackholeRouting =>
            Some {| exp_instance := blackholeRouting; exp_now := now;
                    exp_open := trust_open node.1 |}
          | None => None
          end)
    (imap (fun i node => (i, node)) nodeContainer).

(** A call on the public interface of the module, and a run of calls. *)
Inductive Call :=
| CallSetIpv4 (ipv4 : option Ipv4)
| CallSetDropProbability (probability : float)
| CallInitializeTrustScores (totalNodes : N)
| CallUpdateTrustScore (nodeId : N) (dropped : bool)
| CallRouteInput (packet : Packet) (header : Ipv4Header) (device : NetDevice)
    (ucb lcb : Callback).

Definition call (this : BlackholeAodv) (c : Call) : BlackholeAodv :=
  match c with
  | CallSetIpv4 ipv4 => SetIpv4 this ipv4
  | CallSetDropProbability probability => SetDropProbability this probability
  | CallInitializeTrustScores totalNodes => InitializeTrustScores this totalNodes
  | CallUpdateTrustScore nodeId dropped => UpdateTrustScore this nodeId dropped
  | CallRouteInput packet header device ucb lcb =>
    (RouteInput this packet header device ucb lcb).2
  end.

Definition run_calls (this : BlackholeAodv) (cs : list Call) : BlackholeAodv :=
  foldl call this cs.

Definition is_RouteInput (c : Call) : bool :=
  match c with
  | CallRouteInput _ _ _ _ _ => true
  | _ => false
  end.

(** The number of [RouteInput] calls in a run. *)
Definition decisions (cs : list Call) : N :=
  N.of_nat (length (List.filter is_RouteInput cs)).


(** No call of the run is [UpdateTrustScore(_, true)]. *)
Definition reports_no_drop (cs : list Call) : Prop :=
  Forall (fun c => match c with
                   | CallUpdateTrustScore _ true => False
                   | _ => True
                   end) cs.

End Mitigation.

(** ** The plain attacker (the unmitigated blackhole-aodv.cc) *)

Module Attack.

Record BlackholeAodv := {
  m_ipv4 : option Ipv4;
  m_randomVar : UniformRandomVariable;
  totalDroppedPackets : N;
  totalForwardedPackets : N;
  dropProbability : float
}.

Definition new (rv : UniformRandomVariable) : BlackholeAodv :=
  {| m_ipv4 := None;
     m_randomVar := rv;
     totalDroppedPackets := 0;
     totalForwardedPackets := 0;
     dropProbability := 1.0 |}.

Definition SetDropProbability (this : BlackholeAodv) (probability : float) : BlackholeAodv :=
  if ((probability <? 0.0) || (1.0 <? probability))%float then this
  else
    {| m_ipv4 := m_ipv4 this;
       m_randomVar := m_randomVar this;
       totalDroppedPackets := totalDroppedPackets this;
       totalForwardedPackets := totalForwardedPackets this;
       dropProbability := probability |}.

(** Neither the device nor a callback is looked at; the generator is read
    for every packet, and the test is [randomValue <= dropProbability]. *)
Definition RouteInput (this : BlackholeAodv) (packet : Packet) (header : Ipv4Header)
    (device : NetDevice) (ucb lcb : Callback) : RouteResult * BlackholeAodv :=
  let (randomValue, rv) := GetValue (m_randomVar this) in
  if (randomValue <=? dropProbability this)%float then
    ({| returned := false; invoked := None |},
     {| m_ipv4 := m_ipv4 this;
        m_randomVar := rv;
        totalDroppedPackets := uint32_incr (totalDroppedPackets this);
        totalForwardedPackets := totalForwardedPackets this;
        dropProbability := dropProbability this |})
  else
    ({| returned := true; invoked := None |},
     {| m_ipv4 := m_ipv4 this;
        m_randomVar := rv;
        totalDroppedPackets := totalDroppedPackets this;
        totalForwardedPackets := uint32_incr (totalForwardedPackets this);
        dropProbability := dropProbability this |}).

Definition GetDropProbability (this : BlackholeAodv) : float := dropProbability this.

Definition GetTotalDroppedPackets (this : BlackholeAodv) : N := totalDroppedPackets this.

Definition GetTotalForwardedPackets (this : BlackholeAodv) : N := totalForwardedPackets this.

Definition RouteOutput (this : BlackholeAodv) (packet : Packet) (header : Ipv4Header)
    (oif : NetDevice) : option Ipv4Route * SocketErrno :=
  (None, ERROR_NOROUTETOHOST).

(** An inbound packet as [RouteInput] receives it, and the decisions and the
    module after a run of packets. *)
Record Inbound := {
  in_packet : Packet;
  in_header : Ipv4Header;
  in_device : NetDevice;
  in_ucb : Callback;
  in_lcb : Callback
}.

Definition receive (this : BlackholeAodv) (i : Inbound) : RouteResult * BlackholeAodv :=
  RouteInput this (in_packet i) (in_header i) (in_device i) (in_ucb i) (in_lcb i).

Fixpoint run_packets (this : BlackholeAodv) (inbound : list Inbound)
    : list RouteResult * BlackholeAodv :=
  match inbound with
  | [] => ([], this)
  | i :: rest =>
    let (r, this1) := receive this i in
    let (rs, this2) := run_packets this1 rest in
    (r :: rs, this2)
  end.

End Attack.

(** ** Sample hosts and generators *)

(** A generator whose every draw is [r]. *)
Definition constant_draws (r : float) : UniformRandomVariable :=
  {| rv_tape := fun _ => r; rv_pos := 0 |}.

(** A host with one interface, number 1, for device 1; its address is
    [local]. Any other device has no interface. *)
Definition single_homed (local : Ipv4Address) : Ipv4 :=
  {| GetInterfaceForDevice := fun d => if (d =? 1)%N then 1%Z else (-1)%Z;
     IsDestinationAddress := fun a _ => (a =? local)%N;
     GetLocal := fun _ => local;
     GetNetDevice := fun i => i |}.

Definition present : Callback := {| IsNull := false |}.
Definition null : Callback := {| IsNull := true |}.

(** A ten-node module on the host with address 3, drawing [r] forever, whose
    ledger saw four drops by node 9. *)
Definition sample_module (r : float) : Mitigation.BlackholeAodv :=
  Mitigation.SetIpv4
    (Mitigation.run_updates (Mitigation.started (constant_draws r) (Some 10))
       (Mitigation.repeated 4 9 true))
    (Some (single_homed 3)).

Definition sample_header (dest : Ipv4Address) : Ipv4Header :=
  {| GetSource := 2; GetDestination := dest |}.

(** A three-node module on the host with address 0, drawing [r] forever,
    after four drops by each of the nodes: all three are blacklisted. *)
Definition all_blacklisted (r : float) : Mitigation.BlackholeAodv :=
  Mitigation.SetIpv4
    (Mitigation.run_updates (Mitigation.started (constant_draws r) (Some 3))
       (Mitigation.repeated 4 0 true ++ Mitigation.repeated 4 1 true
          ++ Mitigation.repeated 4 2 true))
    (Some (single_homed 0)).

(** * Facts about binary64

    [SpecFloat] first: rounding never makes a NaN out of a non-negative
    mantissa, and the comparison is antisymmetric. *)

Section SpecFloatFacts.
Variables prec emax : Z.

Lemma shr_1_nonneg mrs : (0 <= shr_m mrs)%Z -> (0 <= shr_m (shr_1 mrs))%Z.
Proof.
  destruct mrs as [m r s]; simpl.
  destruct m as [|p|p]; [done| |lia].
  intros _. destruct p; simpl; lia.
Qed.

Lemma iter_pos_shr_1_nonneg p : forall mrs,
  (0 <= shr_m mrs)%Z -> (0 <= shr_m (SpecFloat.iter_pos shr_1 p mrs))%Z.
Proof.
  induction p as [p IH|p IH|]; intros mrs H; simpl.
  - apply IH, IH, shr_1_nonneg, H.
  - apply IH, IH, H.
  - apply shr_1_nonneg, H.
Qed.

Lemma shr_fexp_nonneg m e l :
  (0 <= m)%Z -> (0 <= shr_m (fst (shr_fexp prec emax m e l)))%Z.
Proof.
  intros H. unfold shr_fexp, shr.
  assert (H0 : (0 <= shr_m (shr_record_of_loc m l))%Z).
  { destruct l as [|[]]; exact H. }
  destruct (fexp prec emax (Zdigits2 m + e) - e)%Z; simpl; auto.
  apply iter_pos_shr_1_nonneg, H0.
Qed.

Lemma round_nearest_even_nonneg mx lx :
  (0 <= mx)%Z -> (0 <= round_nearest_even mx lx)%Z.
Proof.
  intros H. destruct lx as [|[]]; simpl; try lia.
  destruct (Z.even mx); lia.
Qed.

Lemma binary_round_aux_not_nan sx mx ex lx :
  (0 <= mx)%Z -> binary_round_aux prec emax sx mx ex lx <> S754_nan.
Proof.
  intros H. unfold binary_round_aux.
  pose proof (shr_fexp_nonneg mx ex lx H) as H1.
  destruct (shr_fexp prec emax mx ex lx) as [mrs' e']. simpl in H1.
  pose proof (shr_fexp_nonneg _ e' loc_Exact
                (round_nearest_even_nonneg _ (loc_of_shr_record mrs') H1)) as H2.
  destruct (shr_fexp prec emax _ e' loc_Exact) as [mrs'' e'']. simpl in H2.
  destruct (shr_m mrs'') as [|m|m]; [done| |lia].
  destruct (e'' <=? emax - prec)%Z; done.
Qed.

Lemma binary_normalize_not_nan m e szero :
  binary_normalize prec emax m e szero <> S754_nan.
Proof.
  unfold binary_normalize, binary_round.
  destruct m as [|p|p]; [done| |];
    destruct (shl_align _ _ _) as [mz ez]; apply binary_round_aux_not_nan; lia.
Qed.

Lemma SFadd_finite_not_nan x sy my ey :
  x <> S754_nan -> SFadd prec emax x (S754_finite sy my ey) <> S754_nan.
Proof.
  intros Hx. destruct x as [sx|sx| |sx mx ex]; simpl; try done.
  apply binary_normalize_not_nan.
Qed.

Lemma SFcompare_swap x y :
  SFcompare y x = option_map CompOpp (SFcompare x y).
Proof.
  destruct x as [sx|sx| |sx mx ex], y as [sy|sy| |sy my ey]; simpl;
    try reflexivity; try (destruct sx; reflexivity); try (destruct sy; reflexivity);
    try (destruct sx, sy; reflexivity).
  pose proof (Pos.compare_cont_antisym mx my Eq) as Hm. simpl in Hm.
  rewrite <- Hm, (Z.compare_antisym ex ey).
  destruct sx, sy, (ex ?= ey)%Z, (Pos.compare_cont Eq mx my); reflexivity.
Qed.

Lemma SFleb_not_SFltb x y : SFleb x y = true -> SFltb y x = false.
Proof.
  unfold SFleb, SFltb. rewrite (SFcompare_swap x y).
  destruct (SFcompare x y) as [[]|]; simpl; congruence.
Qed.

Lemma SFltb_not_SFleb x y : SFltb x y = true -> SFleb y x = false.
Proof.
  unfold SFleb, SFltb. rewrite (SFcompare_swap x y).
  destruct (SFcompare x y) as [[]|]; simpl; congruence.
Qed.

Lemma not_SFltb_SFleb x y :
  x <> S754_nan -> y <> S754_nan -> SFltb x y = false -> SFleb y x = true.
Proof.
  unfold SFleb, SFltb. rewrite (SFcompare_swap x y). intros Hx Hy.
  destruct x, y; try done; simpl;
    repeat match goal with |- context [match ?c with _ => _ end] => destruct c; simpl; try done end.
Qed.

End SpecFloatFacts.

(** The same facts on primitive floats, through the specification of the
    primitive operations. *)

Ltac float_const := vm_compute; congruence.

Section FloatFacts.
Local Open Scope float_scope.
Implicit Types x y v s : float.

Lemma leb_true_not_nan x y :
  (x <=? y) = true -> Prim2SF x <> S754_nan /\ Prim2SF y <> S754_nan.
Proof.
  rewrite leb_spec. unfold SFleb.
  destruct (Prim2SF x), (Prim2SF y); simpl; try discriminate; split; discriminate.
Qed.

Lemma ltb_true_not_nan x y :
  (x <? y) = true -> Prim2SF x <> S754_nan /\ Prim2SF y <> S754_nan.
Proof.
  rewrite ltb_spec. unfold SFltb.
  destruct (Prim2SF x), (Prim2SF y); simpl; try discriminate; split; discriminate.
Qed.

Lemma leb_ltb_false x y : (x <=? y) = true -> (y <? x) = false.
Proof. rewrite leb_spec, ltb_spec. apply SFleb_not_SFltb. Qed.

Lemma ltb_leb_false x y : (x <? y) = true -> (y <=? x) = false.
Proof. rewrite leb_spec, ltb_spec. apply SFltb_not_SFleb. Qed.

Lemma ltb_leb x y : (x <? y) = true -> (x <=? y) = true.
Proof.
  rewrite leb_spec, ltb_spec. unfold SFltb, SFleb.
  destruct (SFcompare _ _) as [[]|]; congruence.
Qed.

Lemma ltb_asym x y : (x <? y) = true -> (y <? x) = false.
Proof. intros H. apply leb_ltb_false, ltb_leb, H. Qed.

Lemma ltb_false_leb x y :
  Prim2SF x <> S754_nan -> Prim2SF y <> S754_nan ->
  (x <? y) = false -> (y <=? x) = true.
Proof. rewrite leb_spec, ltb_spec. apply not_SFltb_SFleb. Qed.

Lemma leb_false_ltb x y :
  Prim2SF x <> S754_nan -> Prim2SF y <> S754_nan ->
  (x <=? y) = false -> (y <? x) = true.
Proof.
  intros Hx Hy H. destruct (y <? x) eqn:E; [reflexivity|].
  apply ltb_false_leb in E; congruence.
Qed.

Lemma add_finite_not_nan x y sy my ey :
  Prim2SF y = S754_finite sy my ey ->
  Prim2SF x <> S754_nan -> Prim2SF (x + y) <> S754_nan.
Proof.
  intros Hy Hx. rewrite add_spec, Hy. apply SFadd_finite_not_nan, Hx.
Qed.

Lemma clamp_in_unit v : Prim2SF v <> S754_nan -> in_unit (clamp v 0 1) = true.
Proof.
  intros Hv. unfold clamp, in_unit.
  destruct (v <? 0) eqn:E0; [reflexivity|].
  destruct (1 <? v) eqn:E1; [reflexivity|].
  apply ltb_false_leb in E0; [|assumption|float_const].
  apply ltb_false_leb in E1; [|float_const|assumption].
  rewrite E0, E1. reflexivity.
Qed.

Lemma in_unit_not_nan s : in_unit s = true -> Prim2SF s <> S754_nan.
Proof.
  unfold in_unit. intros H. apply andb_prop in H as [H _].
  apply leb_true_not_nan in H. tauto.
Qed.

Lemma change_finite dropped :
  exists sy my ey, Prim2SF (Mitigation.change dropped) = S754_finite sy my ey.
Proof. destruct dropped; do 3 eexists; vm_compute; reflexivity. Qed.

Lemma add_change_not_nan s dropped :
  Prim2SF s <> S754_nan -> Prim2SF (s + Mitigation.change dropped) <> S754_nan.
Proof.
  destruct (change_finite dropped) as (sy & my & ey & H).
  apply (add_finite_not_nan _ _ _ _ _ H).
Qed.

(** Below the blacklist threshold is below the recovery threshold: the two
    constants have the same mantissa, one binade apart. *)
Lemma ltb_trust_recovery s :
  (s <? Mitigation.TRUST_THRESHOLD) = true -> (s <? Mitigation.RECOVERY_THRESHOLD) = true.
Proof.
  rewrite !ltb_spec.
  replace (Prim2SF Mitigation.TRUST_THRESHOLD)
    with (S754_finite false 5404319552844595 (-54)) by (vm_compute; reflexivity).
  replace (Prim2SF Mitigation.RECOVERY_THRESHOLD)
    with (S754_finite false 5404319552844595 (-53)) by (vm_compute; reflexivity).
  generalize 5404319552844595%positive. intros m.
  unfold SFltb. destruct (Prim2SF s) as [sx|sx| |sx mx ex]; cbn [SFcompare]; try easy.
  destruct sx; [easy|].
  destruct (Z.compare_spec ex (-54)) as [->| |]; [| |easy].
  - change (-54 ?= -53)%Z with Lt. easy.
  - intros _. destruct (Z.compare_spec ex (-53)); [lia|easy|lia].
Qed.

Lemma leb_recovery_not_trust s :
  (Mitigation.RECOVERY_THRESHOLD <=? s) = true -> (s <? Mitigation.TRUST_THRESHOLD) = false.
Proof.
  intros H. destruct (s <? Mitigation.TRUST_THRESHOLD) eqn:E; [|reflexivity].
  apply ltb_trust_recovery, ltb_leb_false in E. congruence.
Qed.

End FloatFacts.

(** * The trust ledger *)

Section Ledger.
Import Mitigation.
Implicit Types (this : BlackholeAodv) (nodeId : N) (dropped : bool).

(** What [UpdateTrustScore] stores, read off its three assignments. *)
Lemma UpdateTrustScore_lookup this nodeId dropped :
  trustScores (UpdateTrustScore this nodeId dropped) !! nodeId
  = Some (clamp (GetTrustScore this nodeId + change dropped) 0 1).
Proof.
  unfold UpdateTrustScore, GetTrustScore, subscript. cbn [trustScores set_ledger].
  rewrite lookup_insert_eq. f_equal.
  rewrite lookup_insert_eq. cbn [default]. f_equal. f_equal.
  destruct (trustScores this !! nodeId) as [s|] eqn:E.
  - rewrite E. reflexivity.
  - rewrite lookup_insert_eq. reflexivity.
Qed.

Lemma UpdateTrustScore_lookup_ne this nodeId dropped j :
  j ≠ nodeId ->
  trustScores (UpdateTrustScore this nodeId dropped) !! j = trustScores this !! j.
Proof.
  intros Hj. unfold UpdateTrustScore. cbn [trustScores set_ledger].
  rewrite !lookup_insert_ne by congruence.
  destruct (trustScores this !! nodeId); [reflexivity|].
  rewrite lookup_insert_ne by congruence. reflexivity.
Qed.

Lemma UpdateTrustScore_score this nodeId dropped :
  GetTrustScore (UpdateTrustScore this nodeId dropped) nodeId
  = clamp (GetTrustScore this nodeId + change dropped) 0 1.
Proof.
  unfold GetTrustScore at 1. rewrite UpdateTrustScore_lookup. reflexivity.
Qed.

Lemma UpdateTrustScore_blacklist this nodeId dropped :
  blacklistedNodes (UpdateTrustScore this nodeId dropped)
  = update_blacklist (GetTrustScore (UpdateTrustScore this nodeId dropped) nodeId)
      nodeId (blacklistedNodes this).
Proof.
  unfold GetTrustScore at 1. rewrite UpdateTrustScore_lookup.
  pose proof (UpdateTrustScore_lookup this nodeId dropped) as H.
  unfold UpdateTrustScore in *. cbn [trustScores blacklistedNodes set_ledger] in *.
  unfold subscript at 1. rewrite H. reflexivity.
Qed.

Lemma UpdateTrustScore_frame this nodeId dropped :
  m_ipv4 (UpdateTrustScore this nodeId dropped) = m_ipv4 this
  /\ m_randomVar (UpdateTrustScore this nodeId dropped) = m_randomVar this
  /\ totalDroppedPackets (UpdateTrustScore this nodeId dropped) = totalDroppedPackets this
  /\ totalForwardedPackets (UpdateTrustScore this nodeId dropped) = totalForwardedPackets this
  /\ dropProbability (UpdateTrustScore this nodeId dropped) = dropProbability this.
Proof. repeat split. Qed.

(** Membership after [update_blacklist], as a function of the score. *)
Lemma elem_of_update_blacklist score nodeId bl j :
  j ∈ update_blacklist score nodeId bl <->
  if decide (j = nodeId) then
    (score <? TRUST_THRESHOLD)%float = true
    \/ (nodeId ∈ bl /\ (RECOVERY_THRESHOLD <=? score)%float = false)
  else j ∈ bl.
Proof.
  unfold update_blacklist.
  destruct (score <? TRUST_THRESHOLD)%float eqn:E1;
    [|destruct (RECOVERY_THRESHOLD <=? score)%float eqn:E2];
    destruct (decide (j = nodeId)) as [->|Hne];
    rewrite ?elem_of_union, ?elem_of_difference, ?elem_of_singleton; intuition congruence.
Qed.

(** C1: [UpdateTrustScore(nodeId, dropped)] takes the stored score of
    [nodeId], or 1.0 when it has none, adds -0.2 for a drop and +0.1 for a
    forward (in binary64), clamps the sum to [0.0, 1.0] and stores it; no
    other entry of the ledger changes. *)
Theorem update_stores_clamped_sum this nodeId dropped :
  let oldScore := default 1.0%float (trustScores this !! nodeId) in
  let delta := if dropped then (-0.2)%float else 0.1%float in
  trustScores (UpdateTrustScore this nodeId dropped) !! nodeId
  = Some (clamp (oldScore + delta) 0.0 1.0)
  /\ (forall j, j ≠ nodeId ->
        trustScores (UpdateTrustScore this nodeId dropped) !! j = trustScores this !! j).
Proof.
  split.
  - rewrite UpdateTrustScore_lookup. unfold GetTrustScore, change.
    destruct (trustScores this !! nodeId); reflexivity.
  - intros j Hj. apply UpdateTrustScore_lookup_ne, Hj.
Qed.

End Ledger.

Section Hysteresis.
Import Mitigation.
Implicit Types (this : BlackholeAodv) (nodeId : N) (dropped : bool).

(** C2: after [UpdateTrustScore], with [score] the clamped score it stored:
    a node that was not blacklisted is blacklisted exactly when
    [score < 0.3]; a blacklisted node leaves the blacklist exactly when
    [score >= 0.6]; a blacklisted node with [0.3 < score < 0.6] stays
    blacklisted; the membership of every other node is unchanged. Along the
    scores 1.0, 0.2, 0.4, 0.5, 0.7 the node is blacklisted at 0.2, still at
    0.4 and 0.5, and removed at 0.7. *)
Theorem blacklist_hysteresis this nodeId dropped :
  let this' := UpdateTrustScore this nodeId dropped in
  let score := GetTrustScore this' nodeId in
  (nodeId ∉ blacklistedNodes this ->
     (nodeId ∈ blacklistedNodes this' <-> (score <? 0.3)%float = true))
  /\ (nodeId ∈ blacklistedNodes this ->
     (nodeId ∉ blacklistedNodes this' <-> (0.6 <=? score)%float = true))
  /\ (nodeId ∈ blacklistedNodes this ->
     (0.3 <? score)%float = true -> (score <? 0.6)%float = true ->
     nodeId ∈ blacklistedNodes this')
  /\ (forall j, j ≠ nodeId ->
     (j ∈ blacklistedNodes this' <-> j ∈ blacklistedNodes this))
  /\ ((nodeId ∉ blacklist_along nodeId [1.0])
      /\ (nodeId ∈ blacklist_along nodeId [1.0; 0.2])
      /\ (nodeId ∈ blacklist_along nodeId [1.0; 0.2; 0.4])
      /\ (nodeId ∈ blacklist_along nodeId [1.0; 0.2; 0.4; 0.5])
      /\ (nodeId ∉ blacklist_along nodeId [1.0; 0.2; 0.4; 0.5; 0.7]))%float.
Proof.
  intros this' score.
  assert (Hin : forall j, j ∈ blacklistedNodes this' <->
            if decide (j = nodeId) then
              (score <? TRUST_THRESHOLD)%float = true
              \/ (nodeId ∈ blacklistedNodes this
                  /\ (RECOVERY_THRESHOLD <=? score)%float = false)
            else j ∈ blacklistedNodes this).
  { intros j. unfold this'. rewrite UpdateTrustScore_blacklist.
    apply elem_of_update_blacklist. }
  change 0.3%float with TRUST_THRESHOLD. change 0.6%float with RECOVERY_THRESHOLD.
  pose proof (Hin nodeId) as Hn. rewrite decide_True in Hn by reflexivity.
  split; [|split; [|split; [|split]]].
  - intros Hout. rewrite Hn. tauto.
  - intros Hmem. rewrite Hn. split.
    + intros Hno. destruct (RECOVERY_THRESHOLD <=? score)%float; [reflexivity|].
      exfalso. apply Hno. right. split; [assumption|reflexivity].
    + intros Hge [Hlt|[_ Hlt]]; [|congruence].
      apply leb_recovery_not_trust in Hge. congruence.
  - intros Hmem _ Hlt. apply Hn. right. split; [assumption|].
    apply ltb_leb_false, Hlt.
  - intros j Hj. rewrite (Hin j). rewrite decide_False by assumption. reflexivity.
  - unfold blacklist_along, update_blacklist. cbn [foldl].
    repeat match goal with
           | |- context [(?a <? ?b)%float] =>
             let v := eval vm_compute in (a <? b)%float in
             change (a <? b)%float with v; cbv iota
           | |- context [(?a <=? ?b)%float] =>
             let v := eval vm_compute in (a <=? b)%float in
             change (a <=? b)%float with v; cbv iota
           end.
    rewrite !elem_of_difference, !elem_of_union, !elem_of_singleton.
    pose proof (not_elem_of_empty (C := gset N) nodeId). tauto.
Qed.

(** The band on a run of the module itself: four drops take node 9 from
    1.0 to just above 0.2 and blacklist it; it stays blacklisted through
    three forwards and leaves the blacklist at the fourth, when the stored
    score is the double 0.6. *)
Example blacklist_band_run :
  let this := started (constant_draws 0) (Some 10) in
  let after k := run_updates this (repeated 4 9 true ++ repeated k 9 false) in
  (9 ∈ blacklistedNodes (after 0%nat))
  /\ trustScores (after 0%nat) !! 9 = Some 0.20000000000000007%float
  /\ (9 ∈ blacklistedNodes (after 1%nat))
  /\ (9 ∈ blacklistedNodes (after 2%nat))
  /\ (9 ∈ blacklistedNodes (after 3%nat))
  /\ trustScores (after 3%nat) !! 9 = Some 0.5%float
  /\ (9 ∉ blacklistedNodes (after 4%nat))
  /\ trustScores (after 4%nat) !! 9 = Some 0.6%float.
Proof.
  cbv zeta. repeat split; try (vm_compute; reflexivity).
  vm_compute. discriminate.
Qed.

End Hysteresis.

Section Bounds.
Import Mitigation.
Implicit Types (this : BlackholeAodv) (nodeId : N) (dropped : bool).

Lemma GetTrustScore_not_nan this nodeId :
  scores_in_unit this -> Prim2SF (GetTrustScore this nodeId) <> S754_nan.
Proof.
  intros H. unfold GetTrustScore.
  destruct (trustScores this !! nodeId) as [s|] eqn:E.
  - apply in_unit_not_nan, (H _ _ E).
  - float_const.
Qed.

Lemma UpdateTrustScore_in_unit this nodeId dropped :
  scores_in_unit this -> scores_in_unit (UpdateTrustScore this nodeId dropped).
Proof.
  intros H j s Hs. destruct (decide (j = nodeId)) as [->|Hne].
  - rewrite UpdateTrustScore_lookup in Hs. injection Hs as <-.
    apply clamp_in_unit, add_change_not_nan, GetTrustScore_not_nan, H.
  - rewrite UpdateTrustScore_lookup_ne in Hs by assumption. apply (H _ _ Hs).
Qed.

Lemma run_updates_cons this u us :
  run_updates this (u :: us)
  = run_updates (UpdateTrustScore this (upd_node u) (upd_dropped u)) us.
Proof. reflexivity. Qed.

Lemma run_updates_in_unit us : forall this,
  scores_in_unit this -> scores_in_unit (run_updates this us).
Proof.
  induction us as [|u us IH]; intros this H; [exact H|].
  rewrite run_updates_cons. apply IH, UpdateTrustScore_in_unit, H.
Qed.

(** The score of a node after [k] equal outcomes in a row. *)
Lemma repeated_score k nodeId dropped : forall this,
  GetTrustScore (run_updates this (repeated k nodeId dropped)) nodeId
  = Nat.iter k (fun s => clamp (s + change dropped) 0 1) (GetTrustScore this nodeId).
Proof.
  induction k as [|k IH]; intros this; [reflexivity|].
  unfold repeated. cbn [replicate]. rewrite run_updates_cons. cbn [upd_node upd_dropped].
  fold (repeated k nodeId dropped). rewrite IH, UpdateTrustScore_score.
  rewrite Nat.iter_succ_r. reflexivity.
Qed.

(** C3, as stated, fails on its example: in binary64 five drops from 1.0 leave
    2^-54, a positive score, not 0.0. *)
Lemma five_drops_leave_a_residue :
  let this := started (constant_draws 0) (Some 10) in
  let score := GetTrustScore (run_updates this (repeated 5 7 true)) 7 in
  GetTrustScore this 7 = 1.0%float
  /\ score = 0x1p-54%float
  /\ (0 <? score)%float = true
  /\ score <> 0.0%float.
Proof.
  cbv zeta. rewrite repeated_score.
  assert (H1 : GetTrustScore (started (constant_draws 0) (Some 10)) 7 = 1.0%float)
    by (vm_compute; reflexivity).
  rewrite H1. repeat split; try (vm_compute; reflexivity).
  intros H. apply (f_equal (fun v => (0 <? v)%float)) in H.
  vm_compute in H. discriminate.
Qed.

(** The ledger after [InitializeTrustScores]: 1.0 for the ids below
    [totalNodes], the old entry for the others. *)
Lemma InitializeTrustScores_lookup this totalNodes j :
  trustScores (InitializeTrustScores this totalNodes) !! j
  = if decide (j < totalNodes) then Some 1.0%float else trustScores this !! j.
Proof.
  unfold InitializeTrustScores. cbn [trustScores set_ledger].
  assert (H : forall k,
             foldl (fun ts i => <[N.of_nat i := 1.0%float]> ts) (trustScores this) (seq 0 k) !! j
             = if decide (j < N.of_nat k) then Some 1.0%float else trustScores this !! j).
  { induction k as [|k IH].
    - cbn [seq foldl]. rewrite decide_False by lia. reflexivity.
    - rewrite seq_S, foldl_app. cbn [foldl Nat.add]. rewrite lookup_insert, IH.
      repeat case_decide; try reflexivity; lia. }
  rewrite H, N2Nat.id. reflexivity.
Qed.

Lemma started_in_unit rv init : scores_in_unit (started rv init).
Proof.
  intros n s. destruct init as [totalNodes|]; cbn [started].
  - rewrite InitializeTrustScores_lookup. case_decide.
    + intros [= <-]. reflexivity.
    + cbn [new trustScores]. rewrite lookup_empty. discriminate.
  - cbn [new trustScores]. rewrite lookup_empty. discriminate.
Qed.

(** C3 (amended): along every run of updates from a ledger whose scores are
    in [0.0, 1.0] (a fresh or freshly initialised one is), every stored score
    is in [0.0, 1.0] after every step. Five drops in a row from 1.0 leave
    2^-54, which is in the interval and so not negative; a sixth drop gives
    0.0. *)
Theorem scores_stay_in_unit :
  (forall rv init us k, scores_in_unit (run_updates (started rv init) (take k us)))
  /\ (forall this us k,
       scores_in_unit this -> scores_in_unit (run_updates this (take k us)))
  /\ (forall this nodeId,
       GetTrustScore this nodeId = 1.0%float ->
       GetTrustScore (run_updates this (repeated 5 nodeId true)) nodeId = 0x1p-54%float
       /\ in_unit 0x1p-54 = true
       /\ GetTrustScore (run_updates this (repeated 6 nodeId true)) nodeId = 0.0%float).
Proof.
  split; [|split].
  - intros rv init us k. apply run_updates_in_unit, started_in_unit.
  - intros this us k H. apply run_updates_in_unit, H.
  - intros this nodeId H. rewrite !repeated_score, H.
    repeat split; vm_compute; reflexivity.
Qed.

(** A run the theorem speaks of: an initialised ledger of ten nodes, mixed
    outcomes on two of them. *)
Lemma scores_stay_in_unit_witness :
  let this := started (constant_draws 0) (Some 10) in
  let us := repeated 3 7 true ++ repeated 2 4 false ++ repeated 4 7 true in
  scores_in_unit this
  /\ scores_in_unit (run_updates this (take 6 us))
  /\ GetTrustScore this 7 = 1.0%float
  /\ GetTrustScore (run_updates this (repeated 6 7 true)) 7 = 0.0%float.
Proof.
  cbv zeta.
  pose proof scores_stay_in_unit as (_ & Hrun & Hfive).
  assert (H0 : scores_in_unit (started (constant_draws 0) (Some 10)))
    by apply started_in_unit.
  assert (H1 : GetTrustScore (started (constant_draws 0) (Some 10)) 7 = 1.0%float)
    by (vm_compute; reflexivity).
  split; [exact H0|]. split; [apply Hrun, H0|]. split; [exact H1|].
  apply (Hfive _ _ H1).
Defined.

End Bounds.

(** * The forwarding decision *)

Section Decision.
Import Mitigation.
Implicit Types (this : BlackholeAodv) (header : Ipv4Header).

Lemma RouteInput_bound this (ipv4 : Ipv4) packet header device ucb lcb :
  m_ipv4 this = Some ipv4 ->
  GetInterfaceForDevice ipv4 device ≠ (-1)%Z ->
  RouteInput this packet header device ucb lcb
  = match blacklist_check this (GetDestination header) with
    | inl this' => (drop, this')
    | inr this' =>
      deliver_or_forward this' ipv4 (GetInterfaceForDevice ipv4 device) packet header ucb lcb
    end.
Proof.
  intros Hb Hi. unfold RouteInput. rewrite Hb.
  destruct (Z.eqb_spec (GetInterfaceForDevice ipv4 device) (-1)); [contradiction|reflexivity].
Qed.

(** The blacklist check on a blacklisted destination: the draw decides. *)
Lemma blacklist_check_blacklisted this destNodeId :
  destNodeId ∈ blacklistedNodes this ->
  let r := fst (GetValue (m_randomVar this)) in
  let this1 := set_randomVar this (snd (GetValue (m_randomVar this))) in
  blacklist_check this destNodeId
  = if (r <? dropProbability this)%float then
      inl (UpdateTrustScore
             (set_counters this1 (uint32_incr (totalDroppedPackets this))
                (totalForwardedPackets this))
             destNodeId true)
    else inr this1.
Proof.
  intros Hin. unfold blacklist_check. rewrite decide_True by assumption. reflexivity.
Qed.

Lemma blacklist_check_clear this destNodeId :
  destNodeId ∉ blacklistedNodes this -> blacklist_check this destNodeId = inr this.
Proof.
  intros Hout. unfold blacklist_check. rewrite decide_False by assumption. reflexivity.
Qed.

(** C7: a decision asked of a module that was never bound to an [Ipv4]
    object, or for a device that has no interface, returns false without
    invoking a callback and leaves the module as it was: counters, trust
    scores, blacklist, generator and drop probability. *)
Theorem configuration_error_drops this packet header device ucb lcb :
  (m_ipv4 this = None
   \/ exists ipv4, m_ipv4 this = Some ipv4 /\ GetInterfaceForDevice ipv4 device = (-1)%Z) ->
  let result := RouteInput this packet header device ucb lcb in
  returned (fst result) = false
  /\ invoked (fst result) = None
  /\ snd result = this
  /\ totalDroppedPackets (snd result) = totalDroppedPackets this
  /\ totalForwardedPackets (snd result) = totalForwardedPackets this
  /\ trustScores (snd result) = trustScores this
  /\ blacklistedNodes (snd result) = blacklistedNodes this.
Proof.
  intros H result.
  assert (E : result = (drop, this)).
  { unfold result, RouteInput. destruct H as [->|(ipv4 & -> & ->)]; reflexivity. }
  rewrite E. repeat split.
Qed.

(** C4: a packet for a blacklisted destination whose draw is not below the
    drop probability passes the blacklist check with the ledger and the
    counters untouched (only the generator has advanced). If the packet is
    then forwarded, the destination is updated once, as forwarded: its
    stored score becomes [clamp (old + 0.1)], and [totalForwardedPackets]
    counts the packet; if it is delivered locally the ledger does not change. *)
Theorem blacklisted_survivor_is_rewarded this (ipv4 : Ipv4) packet header device ucb lcb :
  m_ipv4 this = Some ipv4 ->
  GetInterfaceForDevice ipv4 device ≠ (-1)%Z ->
  GetDestination header ∈ blacklistedNodes this ->
  (dropProbability this <=? fst (GetValue (m_randomVar this)))%float = true ->
  let dest := GetDestination header in
  let iface := uint32_of_int32 (GetInterfaceForDevice ipv4 device) in
  let this1 := set_randomVar this (snd (GetValue (m_randomVar this))) in
  let result := RouteInput this packet header device ucb lcb in
  blacklist_check this dest = inr this1
  /\ (IsDestinationAddress ipv4 dest iface = false ->
      snd result
      = UpdateTrustScore
          (set_counters this1 (totalDroppedPackets this)
             (uint32_incr (totalForwardedPackets this)))
          dest false
      /\ trustScores (snd result) !! dest
         = Some (clamp (GetTrustScore this dest + 0.1) 0.0 1.0)
      /\ totalDroppedPackets (snd result) = totalDroppedPackets this
      /\ totalForwardedPackets (snd result) = uint32_incr (totalForwardedPackets this))
  /\ (IsDestinationAddress ipv4 dest iface = true ->
      trustScores (snd result) = trustScores this
      /\ blacklistedNodes (snd result) = blacklistedNodes this
      /\ totalDroppedPackets (snd result) = totalDroppedPackets this
      /\ totalForwardedPackets (snd result) = totalForwardedPackets this).
Proof.
  intros Hb Hi Hin Hr dest iface this1 result.
  assert (Hc : blacklist_check this dest = inr this1).
  { unfold dest. rewrite (blacklist_check_blacklisted _ _ Hin). cbv zeta.
    rewrite (leb_ltb_false _ _ Hr). reflexivity. }
  split; [exact Hc|].
  unfold result. rewrite (RouteInput_bound _ _ _ _ _ _ _ Hb Hi).
  fold dest. rewrite Hc. unfold deliver_or_forward. fold dest iface.
  split; intros Hd; rewrite Hd.
  - destruct (negb (IsNull ucb)); cbn [snd].
    all: split; [reflexivity|]; split; [|split; reflexivity].
    all: rewrite UpdateTrustScore_lookup; reflexivity.
  - destruct (negb (IsNull lcb)); cbn [snd]; repeat split.
Qed.

(** The mitigated module: for a bound module and a blacklisted destination
    the packet is dropped in the blacklist check exactly when the draw [r]
    satisfies [r < dropProbability]: the call then returns false, counts the
    drop and penalises the destination; otherwise it goes on to delivery or
    forwarding. With [dropProbability = 1.0] every draw of [0.0, 1.0) drops;
    with [dropProbability = 0.0] no draw of [0.0, 1.0) does. *)
Lemma blacklisted_drop_condition this (ipv4 : Ipv4) packet header device ucb lcb :
  m_ipv4 this = Some ipv4 ->
  GetInterfaceForDevice ipv4 device ≠ (-1)%Z ->
  GetDestination header ∈ blacklistedNodes this ->
  let dest := GetDestination header in
  let r := fst (GetValue (m_randomVar this)) in
  let this1 := set_randomVar this (snd (GetValue (m_randomVar this))) in
  let result := RouteInput this packet header device ucb lcb in
  let dropped :=
    (drop,
     UpdateTrustScore
       (set_counters this1 (uint32_incr (totalDroppedPackets this))
          (totalForwardedPackets this))
       dest true) in
  let passed :=
    deliver_or_forward this1 ipv4 (GetInterfaceForDevice ipv4 device) packet header ucb lcb in
  ((r <? dropProbability this)%float = true -> result = dropped)
  /\ ((r <? dropProbability this)%float = false -> result = passed)
  /\ (dropProbability this = 1.0%float -> is_draw r = true -> result = dropped)
  /\ (dropProbability this = 0.0%float -> is_draw r = true -> result = passed).
Proof.
  intros Hb Hi Hin dest r this1 result dropped passed.
  assert (E : result = if (r <? dropProbability this)%float then dropped else passed).
  { unfold result. rewrite (RouteInput_bound _ _ _ _ _ _ _ Hb Hi).
    rewrite (blacklist_check_blacklisted _ _ Hin). cbv zeta.
    destruct (_ <? _)%float; reflexivity. }
  unfold is_draw. rewrite E.
  split; [|split; [|split]].
  - intros ->. reflexivity.
  - intros ->. reflexivity.
  - intros -> [_ ->]%andb_prop. reflexivity.
  - intros -> [H0 _]%andb_prop. rewrite (leb_ltb_false _ _ H0). reflexivity.
Qed.

(** The two configuration errors on concrete modules: a module that was
    never bound, and a bound one asked about a device without interface. *)
Lemma configuration_error_drops_witness :
  let unbound := started (constant_draws 0) (Some 10) in
  let bound := sample_module 0 in
  snd (RouteInput unbound 0 (sample_header 9) 1 present present) = unbound
  /\ snd (RouteInput bound 0 (sample_header 9) 2 present present) = bound.
Proof.
  cbv zeta. split.
  - apply (configuration_error_drops (started (constant_draws 0) (Some 10))
             0 (sample_header 9) 1 present present).
    left. reflexivity.
  - apply (configuration_error_drops (sample_module 0) 0 (sample_header 9) 2 present present).
    right. exists (single_homed 3). split; reflexivity.
Defined.

(** Node 9 is blacklisted after its four drops; the draw 0.5 is not below
    the default drop probability 0.05 and the host, address 3, is not the
    destination: the packet is forwarded and node 9 gains 0.1. *)
Lemma blacklisted_survivor_is_rewarded_witness :
  let this := sample_module 0.5 in
  let result := RouteInput this 0 (sample_header 9) 1 present present in
  9 ∈ blacklistedNodes this
  /\ trustScores this !! 9 = Some 0.20000000000000007%float
  /\ trustScores (snd result) !! 9 = Some 0.30000000000000004%float
  /\ totalForwardedPackets (snd result) = 1.
Proof.
  cbv zeta.
  assert (Hin : 9 ∈ blacklistedNodes (sample_module 0.5)) by (vm_compute; reflexivity).
  assert (Hi : GetInterfaceForDevice (single_homed 3) 1 ≠ (-1)%Z) by (vm_compute; discriminate).
  pose proof (blacklisted_survivor_is_rewarded (sample_module 0.5) (single_homed 3)
                0 (sample_header 9) 1 present present eq_refl Hi Hin eq_refl)
    as (_ & Hfwd & _).
  destruct (Hfwd eq_refl) as (_ & Hscore & _ & Hcount).
  cbn [GetDestination sample_header] in Hscore.
  split; [exact Hin|]. split; [vm_compute; reflexivity|].
  split; [rewrite Hscore; vm_compute; reflexivity|exact Hcount].
Defined.

End Decision.

(** * Configuration *)

Section Configuration.
Local Open Scope float_scope.

Lemma in_unit_passes_guard probability :
  in_unit probability = true -> ((probability <? 0.0) || (1.0 <? probability)) = false.
Proof.
  unfold in_unit. intros [H0 H1]%andb_prop.
  rewrite (leb_ltb_false _ _ H0), (leb_ltb_false _ _ H1). reflexivity.
Qed.

(** [SetDropProbability(p)] on numbers, in either module: for [p < 0.0] or
    [p > 1.0] the module is unchanged, so the previous drop probability is
    retained; for [0.0 <= p <= 1.0] the drop probability becomes [p]; in
    both cases every other member keeps its value. *)
Theorem SetDropProbability_range
    (this : Mitigation.BlackholeAodv) (attacker : Attack.BlackholeAodv) probability :
  let this' := Mitigation.SetDropProbability this probability in
  let attacker' := Attack.SetDropProbability attacker probability in
  ((probability <? 0.0) = true \/ (1.0 <? probability) = true ->
     this' = this /\ attacker' = attacker)
  /\ (in_unit probability = true ->
      Mitigation.dropProbability this' = probability
      /\ Attack.dropProbability attacker' = probability)
  /\ (Mitigation.m_ipv4 this' = Mitigation.m_ipv4 this
      /\ Mitigation.m_randomVar this' = Mitigation.m_randomVar this
      /\ Mitigation.trustScores this' = Mitigation.trustScores this
      /\ Mitigation.blacklistedNodes this' = Mitigation.blacklistedNodes this
      /\ Mitigation.totalDroppedPackets this' = Mitigation.totalDroppedPackets this
      /\ Mitigation.totalForwardedPackets this' = Mitigation.totalForwardedPackets this)
  /\ (Attack.m_ipv4 attacker' = Attack.m_ipv4 attacker
      /\ Attack.m_randomVar attacker' = Attack.m_randomVar attacker
      /\ Attack.totalDroppedPackets attacker' = Attack.totalDroppedPackets attacker
      /\ Attack.totalForwardedPackets attacker' = Attack.totalForwardedPackets attacker).
Proof.
  intros this' attacker'. unfold this', attacker'.
  unfold Mitigation.SetDropProbability, Attack.SetDropProbability.
  split; [|split; [|split]].
  - intros [H|H]; rewrite H, ?orb_true_r; split; reflexivity.
  - intros H. rewrite (in_unit_passes_guard _ H). split; reflexivity.
  - destruct (_ || _); repeat split.
  - destruct (_ || _); repeat split.
Qed.

(** 2.0 and -0.5 are refused, 0.25 is taken. *)
Lemma SetDropProbability_range_witness :
  Mitigation.dropProbability (Mitigation.SetDropProbability (sample_module 0) 2.0) = 0.05
  /\ Attack.dropProbability (Attack.SetDropProbability (Attack.new (constant_draws 0)) (-0.5)) = 1.0
  /\ Mitigation.dropProbability (Mitigation.SetDropProbability (sample_module 0) 0.25) = 0.25.
Proof.
  pose proof (SetDropProbability_range (sample_module 0) (Attack.new (constant_draws 0)) 2.0)
    as (Hout & _).
  pose proof (SetDropProbability_range (sample_module 0) (Attack.new (constant_draws 0)) (-0.5))
    as (Hneg & _).
  pose proof (SetDropProbability_range (sample_module 0) (Attack.new (constant_draws 0)) 0.25)
    as (_ & Hin & _).
  destruct (Hout (or_intror eq_refl)) as [-> _].
  destruct (Hneg (or_introl eq_refl)) as [_ ->].
  destruct (Hin eq_refl) as [-> _].
  repeat split.
Defined.

(** A NaN is neither below 0.0 nor above 1.0, so the guard lets it through. *)
Remark SetDropProbability_takes_nan (this : Mitigation.BlackholeAodv) :
  Mitigation.dropProbability (Mitigation.SetDropProbability this nan) = nan.
Proof. reflexivity. Qed.

Lemma ltb_nan_r (r : float) : (r <? nan) = false.
Proof.
  destruct (r <? nan) eqn:E; [|reflexivity].
  apply ltb_true_not_nan in E as [_ E]. exfalso. apply E. vm_compute. reflexivity.
Qed.

Lemma leb_nan_r (r : float) : (r <=? nan) = false.
Proof.
  destruct (r <=? nan) eqn:E; [|reflexivity].
  apply leb_true_not_nan in E as [_ E]. exfalso. apply E. vm_compute. reflexivity.
Qed.

(** C8: the guard of [SetDropProbability] misses the NaN. A NaN is not in
    [0.0, 1.0], but it is neither below 0.0 nor above 1.0, so either module
    stores it in place of the previous drop probability. From then on no
    draw is below the drop probability: the mitigated module drops nothing
    in its blacklist check and the attacker returns true for every packet. *)
Theorem SetDropProbability_stores_nan
    (this : Mitigation.BlackholeAodv) (attacker : Attack.BlackholeAodv) :
  in_unit nan = false
  /\ Mitigation.dropProbability (Mitigation.SetDropProbability this nan) = nan
  /\ Attack.dropProbability (Attack.SetDropProbability attacker nan) = nan
  /\ (forall r,
        (r <? Mitigation.dropProbability (Mitigation.SetDropProbability this nan)) = false)
  /\ (forall destNodeId,
        destNodeId ∈ Mitigation.blacklistedNodes this ->
        Mitigation.blacklist_check (Mitigation.SetDropProbability this nan) destNodeId
        = inr (Mitigation.set_randomVar (Mitigation.SetDropProbability this nan)
                 (GetValue (Mitigation.m_randomVar this)).2))
  /\ (forall packet header device ucb lcb,
        returned
          (Attack.RouteInput (Attack.SetDropProbability attacker nan)
             packet header device ucb lcb).1 = true).
Proof.
  split; [reflexivity|]. split; [reflexivity|]. split; [reflexivity|].
  split; [|split].
  - intros r. apply ltb_nan_r.
  - intros destNodeId Hin.
    rewrite (blacklist_check_blacklisted (Mitigation.SetDropProbability this nan) destNodeId Hin).
    cbv zeta. cbn [Mitigation.SetDropProbability Mitigation.dropProbability].
    change ((nan <? 0) || (1 <? nan)) with false. cbn [Mitigation.dropProbability].
    rewrite ltb_nan_r. reflexivity.
  - intros packet header device ucb lcb.
    unfold Attack.RouteInput. cbn [GetValue].
    change (Attack.dropProbability (Attack.SetDropProbability attacker nan)) with nan.
    rewrite leb_nan_r. reflexivity.
Qed.

End Configuration.

(** * The two engines side by side *)

Section Engines.
Local Open Scope float_scope.

Lemma Attack_RouteInput_returned (a : Attack.BlackholeAodv) packet header device ucb lcb :
  returned (fst (Attack.RouteInput a packet header device ucb lcb))
  = negb (fst (GetValue (Attack.m_randomVar a)) <=? Attack.dropProbability a).
Proof.
  unfold Attack.RouteInput. cbn [GetValue fst].
  destruct (_ <=? _); reflexivity.
Qed.

(** C5, as stated, fails on the attacker, whose test is
    [randomValue <= dropProbability]: with drop probability 0.0 the draw 0.0,
    a draw of [0.0, 1.0), is dropped, and with drop probability 0.5 so is
    the draw 0.5; in both cases [r < dropProbability] is false. *)
Lemma attacker_drops_at_the_drop_probability :
  let never := Attack.SetDropProbability (Attack.new (constant_draws 0.0)) 0.0 in
  let half := Attack.SetDropProbability (Attack.new (constant_draws 0.5)) 0.5 in
  Attack.dropProbability never = 0.0
  /\ is_draw (GetValue (Attack.m_randomVar never)).1 = true
  /\ ((GetValue (Attack.m_randomVar never)).1 <? Attack.dropProbability never) = false
  /\ (Attack.RouteInput never 0 (sample_header 2) 1 present present).1 = Mitigation.drop
  /\ Attack.totalDroppedPackets
       (Attack.RouteInput never 0 (sample_header 2) 1 present present).2 = 1%N
  /\ ((GetValue (Attack.m_randomVar half)).1 <? Attack.dropProbability half) = false
  /\ (Attack.RouteInput half 0 (sample_header 2) 1 present present).1 = Mitigation.drop.
Proof. cbv zeta. repeat split; vm_compute; reflexivity. Qed.

(** C5 (amended): in the mitigated module, for a bound module, a resolved
    interface and a blacklisted destination, the packet is dropped in the
    blacklist check exactly when the draw [r] satisfies
    [r < dropProbability]; at 1.0 every draw of [0.0, 1.0) is dropped and at
    0.0 none is, the decision going on to delivery or forwarding. In the
    attacker the packet is dropped exactly when [r <= dropProbability]: at
    1.0 every draw of [0.0, 1.0) is dropped, and at 0.0 a draw is dropped
    exactly when [r <= 0.0], so the draw 0.0 is and no draw above 0.0 is. *)
Theorem drop_condition_of_each_engine :
  (forall (this : Mitigation.BlackholeAodv) (ipv4 : Ipv4) packet header device ucb lcb,
     Mitigation.m_ipv4 this = Some ipv4 ->
     GetInterfaceForDevice ipv4 device ≠ (-1)%Z ->
     GetDestination header ∈ Mitigation.blacklistedNodes this ->
     let dest := GetDestination header in
     let r := (GetValue (Mitigation.m_randomVar this)).1 in
     let this1 := Mitigation.set_randomVar this (GetValue (Mitigation.m_randomVar this)).2 in
     let result := Mitigation.RouteInput this packet header device ucb lcb in
     let dropped :=
       (Mitigation.drop,
        Mitigation.UpdateTrustScore
          (Mitigation.set_counters this1 (uint32_incr (Mitigation.totalDroppedPackets this))
             (Mitigation.totalForwardedPackets this))
          dest true) in
     let passed :=
       Mitigation.deliver_or_forward this1 ipv4 (GetInterfaceForDevice ipv4 device)
         packet header ucb lcb in
     ((r <? Mitigation.dropProbability this) = true -> result = dropped)
     /\ ((r <? Mitigation.dropProbability this) = false -> result = passed)
     /\ (Mitigation.dropProbability this = 1.0 -> is_draw r = true -> result = dropped)
     /\ (Mitigation.dropProbability this = 0.0 -> is_draw r = true -> result = passed))
  /\ (forall (a : Attack.BlackholeAodv) packet header device ucb lcb,
        let r := (GetValue (Attack.m_randomVar a)).1 in
        let result := Attack.RouteInput a packet header device ucb lcb in
        (returned result.1 = false <-> (r <=? Attack.dropProbability a) = true)
        /\ (returned result.1 = false ->
            Attack.totalDroppedPackets result.2 = uint32_incr (Attack.totalDroppedPackets a))
        /\ (Attack.dropProbability a = 1.0 -> is_draw r = true -> returned result.1 = false)
        /\ (Attack.dropProbability a = 0.0 ->
            (returned result.1 = false <-> (r <=? 0.0) = true))
        /\ (Attack.dropProbability a = 0.0 -> r = 0.0 -> returned result.1 = false)
        /\ (Attack.dropProbability a = 0.0 -> (0.0 <? r) = true -> returned result.1 = true)).
Proof.
  split.
  - intros this ipv4 packet header device ucb lcb Hb Hi Hin.
    apply (blacklisted_drop_condition this ipv4 packet header device ucb lcb Hb Hi Hin).
  - intros a packet header device ucb lcb r result.
    assert (Hret : returned result.1 = negb (r <=? Attack.dropProbability a))
      by apply Attack_RouteInput_returned.
    split; [|split; [|split; [|split; [|split]]]].
    + rewrite Hret. destruct (r <=? _); cbn; split; congruence.
    + clear Hret. unfold result, r, Attack.RouteInput. cbn [GetValue fst snd].
      destruct (_ <=? _)%float; cbn; [reflexivity|discriminate].
    + intros Hp [_ Hlt]%andb_prop. rewrite Hret, Hp, (ltb_leb _ _ Hlt). reflexivity.
    + intros Hp. rewrite Hret, Hp. destruct (r <=? 0); cbn; split; congruence.
    + intros Hp Hr. rewrite Hret, Hp, Hr. reflexivity.
    + intros Hp Hlt. rewrite Hret, Hp, (ltb_leb_false _ _ Hlt). reflexivity.
Qed.

(** The sample module with drop probability 1.0 drops the packet for node 9
    on the draw 0.5 and with drop probability 0.0 forwards it; the attacker
    at 0.0 drops on the draw 0.0 and forwards on the draw 0.5. *)
Lemma drop_condition_of_each_engine_witness :
  let certain := Mitigation.SetDropProbability (sample_module 0.5) 1.0 in
  let never := Mitigation.SetDropProbability (sample_module 0.5) 0.0 in
  let attacker r := Attack.SetDropProbability (Attack.new (constant_draws r)) 0.0 in
  returned (Mitigation.RouteInput certain 0 (sample_header 9) 1 present present).1 = false
  /\ Mitigation.totalDroppedPackets
       (Mitigation.RouteInput certain 0 (sample_header 9) 1 present present).2 = 1%N
  /\ returned (Mitigation.RouteInput never 0 (sample_header 9) 1 present present).1 = true
  /\ Mitigation.totalDroppedPackets
       (Mitigation.RouteInput never 0 (sample_header 9) 1 present present).2 = 0%N
  /\ returned (Attack.RouteInput (attacker 0.0) 0 (sample_header 9) 1 present present).1 = false
  /\ returned (Attack.RouteInput (attacker 0.5) 0 (sample_header 9) 1 present present).1 = true.
Proof.
  cbv zeta. destruct drop_condition_of_each_engine as [Hm Ha].
  assert (Hi : GetInterfaceForDevice (single_homed 3) 1 ≠ (-1)%Z) by (vm_compute; discriminate).
  assert (H1 : GetDestination (sample_header 9)
               ∈ Mitigation.blacklistedNodes (Mitigation.SetDropProbability (sample_module 0.5) 1.0))
    by (vm_compute; reflexivity).
  assert (H0 : GetDestination (sample_header 9)
               ∈ Mitigation.blacklistedNodes (Mitigation.SetDropProbability (sample_module 0.5) 0.0))
    by (vm_compute; reflexivity).
  destruct (Hm (Mitigation.SetDropProbability (sample_module 0.5) 1.0)
              (single_homed 3) 0%N (sample_header 9) 1%N present present eq_refl Hi H1)
    as (_ & _ & Hdrop & _).
  destruct (Hm (Mitigation.SetDropProbability (sample_module 0.5) 0.0)
              (single_homed 3) 0%N (sample_header 9) 1%N present present eq_refl Hi H0)
    as (_ & _ & _ & Hpass).
  destruct (Ha (Attack.SetDropProbability (Attack.new (constant_draws 0.0)) 0.0)
              0%N (sample_header 9) 1%N present present) as (_ & _ & _ & _ & Hzero & _).
  destruct (Ha (Attack.SetDropProbability (Attack.new (constant_draws 0.5)) 0.0)
              0%N (sample_header 9) 1%N present present) as (_ & _ & _ & _ & _ & Habove).
  rewrite (Hdrop eq_refl eq_refl), (Hpass eq_refl eq_refl).
  split; [reflexivity|]. split; [reflexivity|]. split; [reflexivity|]. split; [reflexivity|].
  split; [apply Hzero; reflexivity|apply Habove; reflexivity].
Defined.

(** C6, as stated, fails, also with one drop probability and one generator
    for both engines. On a network whose nodes are all blacklisted in the
    mitigated module: at drop probability 0.5 the draw 0.5 makes the
    attacker drop a packet that the mitigated module forwards; at drop
    probability 0.25 the draw 0.5 makes the attacker return true for a
    packet that the mitigated module, given no forward callback, refuses. *)
Lemma attacker_differs_at_common_probability :
  let header := sample_header 2 in
  let m p := Mitigation.SetDropProbability (all_blacklisted 0.5) p in
  let a p := Attack.SetDropProbability (Attack.new (constant_draws 0.5)) p in
  Mitigation.blacklistedNodes (m 0.5) = dom (Mitigation.trustScores (m 0.5))
  /\ Attack.m_randomVar (a 0.5) = Mitigation.m_randomVar (m 0.5)
  /\ Attack.dropProbability (a 0.5) = Mitigation.dropProbability (m 0.5)
  /\ returned (Attack.RouteInput (a 0.5) 0 header 1 present present).1 = false
  /\ returned (Mitigation.RouteInput (m 0.5) 0 header 1 present present).1 = true
  /\ Attack.dropProbability (a 0.25) = Mitigation.dropProbability (m 0.25)
  /\ returned (Attack.RouteInput (a 0.25) 0 header 1 null present).1 = true
  /\ returned (Mitigation.RouteInput (m 0.25) 0 header 1 null present).1 = false.
Proof. cbv zeta. repeat split; vm_compute; reflexivity. Qed.

(** C6 (amended): take one drop probability [p] and one draw [r] for both
    engines and a destination that is blacklisted in the mitigated module.
    The attacker drops exactly when [r <= p], whatever the header. Whenever
    [r < p] both engines drop the packet; at [p = 1.0] that is every draw of
    [0.0, 1.0). When [r < p] fails, the mitigated decision is that of its
    delivery and forwarding: true exactly when the module is bound, the
    interface resolves and the callback the packet needs is present; the two
    decisions are then equal exactly when that coincides with [r <= p]
    failing. *)
Theorem engines_agree_below_the_drop_probability
    (a : Attack.BlackholeAodv) (m : Mitigation.BlackholeAodv) packet header device ucb lcb :
  Attack.m_randomVar a = Mitigation.m_randomVar m ->
  Attack.dropProbability a = Mitigation.dropProbability m ->
  GetDestination header ∈ Mitigation.blacklistedNodes m ->
  let r := (GetValue (Mitigation.m_randomVar m)).1 in
  let p := Mitigation.dropProbability m in
  let attacker := returned (Attack.RouteInput a packet header device ucb lcb).1 in
  let mitigated := returned (Mitigation.RouteInput m packet header device ucb lcb).1 in
  let handed_on :=
    match Mitigation.m_ipv4 m with
    | Some ipv4 =>
      negb (GetInterfaceForDevice ipv4 device =? -1)%Z
      && negb (IsNull (if IsDestinationAddress ipv4 (GetDestination header)
                            (uint32_of_int32 (GetInterfaceForDevice ipv4 device))
                       then lcb else ucb))
    | None => false
    end in
  attacker = negb (r <=? p)
  /\ ((r <? p) = true -> attacker = false /\ mitigated = false)
  /\ (p = 1.0 -> is_draw r = true -> attacker = false /\ mitigated = false)
  /\ ((r <? p) = false ->
      mitigated = handed_on /\ (attacker = mitigated <-> negb (r <=? p) = handed_on))
  /\ (forall header',
        Attack.RouteInput a packet header' device ucb lcb
        = Attack.RouteInput a packet header device ucb lcb).
Proof.
  intros Hrv Hp Hin r p attacker mitigated handed_on.
  assert (Ha : attacker = negb (r <=? p)).
  { unfold attacker, r, p. rewrite Attack_RouteInput_returned, Hrv, Hp. reflexivity. }
  assert (Hm : mitigated = if (r <? p) then false else handed_on).
  { unfold mitigated, handed_on, Mitigation.RouteInput.
    destruct (Mitigation.m_ipv4 m) as [ipv4|]; [|destruct (r <? p); reflexivity].
    destruct (_ =? _)%Z; [destruct (r <? p); reflexivity|].
    rewrite (blacklist_check_blacklisted _ _ Hin). cbv zeta. fold r p.
    destruct (r <? p); [reflexivity|].
    unfold Mitigation.deliver_or_forward. cbn [negb andb].
    destruct (IsDestinationAddress _ _ _); [destruct (IsNull lcb)|destruct (IsNull ucb)];
      reflexivity. }
  assert (Hbelow : (r <? p) = true -> attacker = false /\ mitigated = false).
  { intros Hlt. rewrite Ha, Hm, Hlt, (ltb_leb _ _ Hlt). split; reflexivity. }
  split; [exact Ha|]. split; [exact Hbelow|]. split; [|split].
  - intros Hone [_ Hlt]%andb_prop. apply Hbelow. rewrite Hone. exact Hlt.
  - intros Hlt. rewrite Ha, Hm, Hlt. split; [reflexivity|]. split; congruence.
  - reflexivity.
Qed.

(** Both engines at 0.75 on the three-node network, drawing 0.5: both drop.
    At 0.25 the draw is not below, and with both callbacks present both
    return true. *)
Lemma engines_agree_below_the_drop_probability_witness :
  let a p := Attack.SetDropProbability (Attack.new (constant_draws 0.5)) p in
  let m p := Mitigation.SetDropProbability (all_blacklisted 0.5) p in
  returned (Attack.RouteInput (a 0.75) 0 (sample_header 2) 1 present present).1 = false
  /\ returned (Mitigation.RouteInput (m 0.75) 0 (sample_header 2) 1 present present).1 = false
  /\ returned (Attack.RouteInput (a 0.25) 0 (sample_header 2) 1 present present).1
     = returned (Mitigation.RouteInput (m 0.25) 0 (sample_header 2) 1 present present).1.
Proof.
  cbv zeta.
  assert (H75 : GetDestination (sample_header 2)
                ∈ Mitigation.blacklistedNodes
                    (Mitigation.SetDropProbability (all_blacklisted 0.5) 0.75))
    by (vm_compute; reflexivity).
  assert (H25 : GetDestination (sample_header 2)
                ∈ Mitigation.blacklistedNodes
                    (Mitigation.SetDropProbability (all_blacklisted 0.5) 0.25))
    by (vm_compute; reflexivity).
  destruct (engines_agree_below_the_drop_probability
              (Attack.SetDropProbability (Attack.new (constant_draws 0.5)) 0.75)
              (Mitigation.SetDropProbability (all_blacklisted 0.5) 0.75)
              0%N (sample_header 2) 1%N present present eq_refl eq_refl H75)
    as (_ & Hbelow & _).
  destruct (engines_agree_below_the_drop_probability
              (Attack.SetDropProbability (Attack.new (constant_draws 0.5)) 0.25)
              (Mitigation.SetDropProbability (all_blacklisted 0.5) 0.25)
              0%N (sample_header 2) 1%N present present eq_refl eq_refl H25)
    as (_ & _ & _ & Hpass & _).
  destruct (Hbelow eq_refl) as [Ha Hm]. destruct (Hpass eq_refl) as [_ Heq].
  split; [exact Ha|]. split; [exact Hm|]. apply Heq. reflexivity.
Defined.

End Engines.

(** * Telemetry *)

Section Telemetry.
Import Mitigation.

Lemma score_rows_length now (ts : gmap N float) : length (score_rows now ts) = size ts.
Proof.
  unfold score_rows. rewrite length_fmap, merge_sort_Permutation.
  apply length_map_to_list.
Qed.

Lemma blacklist_rows_length now (bl : gset N) : length (blacklist_rows now bl) = size bl.
Proof.
  unfold blacklist_rows. rewrite length_fmap, merge_sort_Permutation. reflexivity.
Qed.

Lemma data_rows_no_header e : List.filter is_header (data_rows e) = [].
Proof.
  unfold data_rows, score_rows, blacklist_rows. destruct (exp_open e); [|reflexivity].
  rewrite List.filter_app.
  generalize (merge_sort key_le (map_to_list (trustScores (exp_instance e)))).
  generalize (merge_sort N.le (elements (blacklistedNodes (exp_instance e)))).
  intros l1 l2. induction l2 as [|x l2 IH]; [|exact IH].
  induction l1 as [|y l1 IH]; [reflexivity|exact IH].
Qed.

Lemma flat_map_data_rows_no_header es : List.filter is_header (flat_map data_rows es) = [].
Proof.
  induction es as [|e es IH]; [reflexivity|].
  cbn [flat_map]. rewrite List.filter_app, data_rows_no_header, IH. reflexivity.
Qed.

Lemma run_export_closed p e : exp_open e = false -> run_export p e = p.
Proof. intros H. unfold run_export, LogTrustScores. rewrite H. reflexivity. Qed.

(** What a run of exports leaves, from any state of the process. *)
Lemma run_exports_log es : forall p,
  headerWritten (run_exports p es) = headerWritten p || existsb exp_open es
  /\ trust_scores_csv (run_exports p es)
     = trust_scores_csv p
         ++ (if negb (headerWritten p) && existsb exp_open es
             then [Literal header_text] else [])
         ++ flat_map data_rows es.
Proof.
  induction es as [|e es IH]; intros p.
  - cbn. rewrite orb_false_r, andb_false_r, app_nil_r. split; reflexivity.
  - change (run_exports p (e :: es)) with (run_exports (run_export p e) es).
    destruct (IH (run_export p e)) as [IHh IHl]. rewrite IHh, IHl. clear IH IHh IHl.
    unfold run_export, LogTrustScores, data_rows. cbn [existsb flat_map].
    destruct (exp_open e); cbn [negb orb].
    + cbn [headerWritten trust_scores_csv negb andb orb app].
      destruct (headerWritten p); cbn [negb andb orb app];
        repeat (rewrite <- app_assoc; cbn [app]); split; reflexivity.
    + split; reflexivity.
Qed.

(** C9: along any exports of one process, by whatever instances, the log
    grows by the header line once, written by the first export whose file
    opens, right before that export's rows, and otherwise by data rows only:
    for each export that opens the file, one row per ledger entry and then
    one per blacklisted node. An export whose file does not open changes
    neither the log nor the flag, and the exports after it go on as usual. *)
Theorem header_written_once file es :
  let appended :=
    (if existsb exp_open es then [Literal header_text] else []) ++ flat_map data_rows es in
  trust_scores_csv (run_exports (process_start file) es) = file ++ appended
  /\ length (List.filter is_header appended)
     = (if existsb exp_open es then 1 else 0)%nat
  /\ (forall e, exp_open e = true ->
        data_rows e
        = score_rows (exp_now e) (trustScores (exp_instance e))
            ++ blacklist_rows (exp_now e) (blacklistedNodes (exp_instance e))
        /\ length (data_rows e)
           = (size (trustScores (exp_instance e))
              + size (blacklistedNodes (exp_instance e)))%nat)
  /\ (forall closed e,
        existsb exp_open closed = false -> exp_open e = true ->
        trust_scores_csv (run_exports (process_start file) (closed ++ [e]))
        = file ++ Literal header_text :: data_rows e)
  /\ (forall p e, exp_open e = false -> run_export p e = p).
Proof.
  intros appended. split; [|split; [|split; [|split]]].
  - destruct (run_exports_log es (process_start file)) as [_ ->]. reflexivity.
  - unfold appended. rewrite List.filter_app, flat_map_data_rows_no_header, app_nil_r.
    destruct (existsb exp_open es); reflexivity.
  - intros e He. unfold data_rows. rewrite He. split; [reflexivity|].
    rewrite length_app, score_rows_length, blacklist_rows_length. reflexivity.
  - intros closed e Hc He.
    destruct (run_exports_log (closed ++ [e]) (process_start file)) as [_ ->].
    cbn [process_start headerWritten trust_scores_csv negb andb].
    rewrite existsb_app, Hc. cbn [existsb orb]. rewrite He. cbn [orb].
    rewrite flat_map_app. cbn [flat_map]. rewrite app_nil_r.
    assert (Hnil : flat_map data_rows closed = []).
    { clear -Hc. induction closed as [|c closed IH]; [reflexivity|].
      cbn [existsb] in Hc. apply orb_false_elim in Hc as [Hc1 Hc2].
      cbn [flat_map]. rewrite (IH Hc2). unfold data_rows. rewrite Hc1. reflexivity. }
    rewrite Hnil. reflexivity.
  - intros p e. apply run_export_closed.
Qed.

(** Three exports of one process: the file fails to open for the first,
    then two instances export in turn. One header, ahead of the 10 + 1 rows
    of the first instance and the 3 + 3 rows of the second. *)
Lemma header_written_once_witness :
  let es := [ {| exp_instance := all_blacklisted 0; exp_now := 5.0; exp_open := false |};
              {| exp_instance := sample_module 0; exp_now := 5.0; exp_open := true |};
              {| exp_instance := all_blacklisted 0; exp_now := 10.0; exp_open := true |} ] in
  trust_scores_csv (run_exports (process_start []) es)
  = Literal header_text :: flat_map data_rows es
  /\ length (flat_map data_rows es) = 17%nat.
Proof.
  cbv zeta.
  destruct (header_written_once []
              [ {| exp_instance := all_blacklisted 0; exp_now := 5.0; exp_open := false |};
                {| exp_instance := sample_module 0; exp_now := 5.0; exp_open := true |};
                {| exp_instance := all_blacklisted 0; exp_now := 10.0; exp_open := true |} ])
    as (Hlog & _).
  cbn [existsb exp_open orb app] in Hlog.
  split; [exact Hlog|]. vm_compute. reflexivity.
Defined.

End Telemetry.

(** * The blacklist between the thresholds *)

Section Sandwich.
Import Mitigation.
Implicit Types (this : BlackholeAodv) (nodeId : N) (dropped : bool).

Lemma clamp_not_nan v : Prim2SF v <> S754_nan -> Prim2SF (clamp v 0 1) <> S754_nan.
Proof. intros H. apply in_unit_not_nan, clamp_in_unit, H. Qed.

(** The predicate looks at the ledger only. *)
Lemma sandwiched_ledger this this' :
  trustScores this' = trustScores this ->
  blacklistedNodes this' = blacklistedNodes this ->
  sandwiched this -> sandwiched this'.
Proof. unfold sandwiched. intros -> ->. trivial. Qed.

Lemma UpdateTrustScore_sandwiched this nodeId dropped :
  sandwiched this -> sandwiched (UpdateTrustScore this nodeId dropped).
Proof.
  intros [Hbl Hlow].
  pose proof (UpdateTrustScore_lookup this nodeId dropped) as Hs.
  pose proof (UpdateTrustScore_score this nodeId dropped) as Hg.
  set (score := clamp (GetTrustScore this nodeId + change dropped) 0 1) in *.
  assert (Hin : forall j, j ∈ blacklistedNodes (UpdateTrustScore this nodeId dropped) <->
            if decide (j = nodeId) then
              (score <? TRUST_THRESHOLD)%float = true
              \/ (nodeId ∈ blacklistedNodes this
                  /\ (RECOVERY_THRESHOLD <=? score)%float = false)
            else j ∈ blacklistedNodes this).
  { intros j. rewrite UpdateTrustScore_blacklist, Hg. apply elem_of_update_blacklist. }
  split.
  - intros j Hj. apply Hin in Hj. destruct (decide (j = nodeId)) as [->|Hne].
    + exists score. split; [exact Hs|].
      destruct Hj as [Hlt|[Hmem Hge]]; [apply ltb_trust_recovery, Hlt|].
      destruct (Hbl _ Hmem) as (s & Hold & Hs_lt).
      apply leb_false_ltb; [float_const| |exact Hge].
      apply clamp_not_nan, add_change_not_nan.
      unfold GetTrustScore. rewrite Hold.
      apply ltb_true_not_nan in Hs_lt. tauto.
    + rewrite UpdateTrustScore_lookup_ne by assumption. apply Hbl, Hj.
  - intros j s Hj Hlt. apply Hin. destruct (decide (j = nodeId)) as [->|Hne].
    + rewrite Hs in Hj. injection Hj as <-. left. exact Hlt.
    + rewrite UpdateTrustScore_lookup_ne in Hj by assumption. apply (Hlow _ _ Hj Hlt).
Qed.

Lemma run_updates_sandwiched us : forall this,
  sandwiched this -> sandwiched (run_updates this us).
Proof.
  induction us as [|u us IH]; intros this H; [exact H|].
  rewrite run_updates_cons. apply IH, UpdateTrustScore_sandwiched, H.
Qed.

Lemma started_sandwiched rv init : sandwiched (started rv init).
Proof.
  split.
  - intros n Hn. exfalso. destruct init; cbn in Hn; apply (not_elem_of_empty _ Hn).
  - intros n s Hs Hlt. exfalso.
    destruct init as [totalNodes|]; cbn [started] in Hs.
    + rewrite InitializeTrustScores_lookup in Hs. case_decide.
      * injection Hs as <-. vm_compute in Hlt. discriminate.
      * cbn [new trustScores] in Hs. rewrite lookup_empty in Hs. discriminate.
    + cbn [new trustScores] in Hs. rewrite lookup_empty in Hs. discriminate.
Qed.

Lemma RouteInput_sandwiched this packet header device ucb lcb :
  sandwiched this -> sandwiched (snd (RouteInput this packet header device ucb lcb)).
Proof.
  intros H. unfold RouteInput.
  destruct (m_ipv4 this) as [ipv4|]; [|exact H].
  destruct (_ =? _)%Z; [exact H|].
  assert (Hc : match blacklist_check this (GetDestination header) with
               | inl this' | inr this' => sandwiched this'
               end).
  { unfold blacklist_check. case_decide; [|exact H].
    cbn [GetValue]. destruct (_ <? _)%float.
    - apply UpdateTrustScore_sandwiched. revert H. apply sandwiched_ledger; reflexivity.
    - revert H. apply sandwiched_ledger; reflexivity. }
  destruct (blacklist_check this (GetDestination header)) as [this'|this']; [exact Hc|].
  unfold deliver_or_forward.
  destruct (IsDestinationAddress _ _ _).
  - destruct (negb _); exact Hc.
  - assert (Hu : sandwiched
                   (UpdateTrustScore
                      (set_counters this' (totalDroppedPackets this')
                         (uint32_incr (totalForwardedPackets this')))
                      (GetDestination header) false)).
    { apply UpdateTrustScore_sandwiched. revert Hc. apply sandwiched_ledger; reflexivity. }
    destruct (negb _); exact Hu.
Qed.

(** C10: after construction, at most one [InitializeTrustScores] and any
    run of [UpdateTrustScore] calls, every blacklisted node has a stored
    score below the recovery threshold 0.6 and every node whose stored score
    is below the trust threshold 0.3 is blacklisted. The predicate holds at
    the start and is kept by each [UpdateTrustScore], by [RouteInput] and
    by [SetDropProbability], from any state that has it. *)
Theorem blacklist_between_thresholds :
  (forall rv init us, sandwiched (run_updates (started rv init) us))
  /\ (forall rv init, sandwiched (started rv init))
  /\ (forall this nodeId dropped,
        sandwiched this -> sandwiched (UpdateTrustScore this nodeId dropped))
  /\ (forall this packet header device ucb lcb,
        sandwiched this -> sandwiched (snd (RouteInput this packet header device ucb lcb)))
  /\ (forall this probability,
        sandwiched this -> sandwiched (SetDropProbability this probability)).
Proof.
  split; [|split; [|split; [|split]]].
  - intros rv init us. apply run_updates_sandwiched, started_sandwiched.
  - apply started_sandwiched.
  - apply UpdateTrustScore_sandwiched.
  - apply RouteInput_sandwiched.
  - intros this probability. unfold SetDropProbability.
    destruct (_ || _); [trivial|]. apply sandwiched_ledger; reflexivity.
Qed.

(** [InitializeTrustScores] is outside the claim once nodes are blacklisted:
    it resets the scores and leaves the blacklist. *)
Remark late_initialisation_breaks_sandwich :
  let this := InitializeTrustScores (sample_module 0) 10 in
  9 ∈ blacklistedNodes this /\ trustScores this !! 9 = Some 1.0%float.
Proof. cbv zeta. split; vm_compute; reflexivity. Qed.

End Sandwich.

(** * More on the ledger *)

Section LedgerAlgebra.
Import Mitigation.
Implicit Types (this : BlackholeAodv) (nodeId : N) (dropped : bool).

Lemma BlackholeAodv_eq this this' :
  m_ipv4 this = m_ipv4 this' ->
  m_randomVar this = m_randomVar this' ->
  trustScores this = trustScores this' ->
  blacklistedNodes this = blacklistedNodes this' ->
  totalDroppedPackets this = totalDroppedPackets this' ->
  totalForwardedPackets this = totalForwardedPackets this' ->
  dropProbability this = dropProbability this' ->
  this = this'.
Proof. destruct this, this'. cbn. intros. subst. reflexivity. Qed.

Lemma elem_of_UpdateTrustScore_blacklist this nodeId dropped j :
  j ∈ blacklistedNodes (UpdateTrustScore this nodeId dropped) <->
  if decide (j = nodeId) then
    (clamp (GetTrustScore this nodeId + change dropped) 0 1 <? TRUST_THRESHOLD)%float = true
    \/ (nodeId ∈ blacklistedNodes this
        /\ (RECOVERY_THRESHOLD <=? clamp (GetTrustScore this nodeId + change dropped) 0 1)%float
           = false)
  else j ∈ blacklistedNodes this.
Proof.
  rewrite UpdateTrustScore_blacklist, UpdateTrustScore_score.
  apply elem_of_update_blacklist.
Qed.

Lemma GetTrustScore_lookup this this' nodeId :
  trustScores this !! nodeId = trustScores this' !! nodeId ->
  GetTrustScore this nodeId = GetTrustScore this' nodeId.
Proof. unfold GetTrustScore. intros ->. reflexivity. Qed.

(** X1: The ledger after [InitializeTrustScores(totalNodes)]: score 1.0 for
    every id below [totalNodes], the old entry for every other id; the
    blacklist and the other members are as before. Initialising again is
    the same as initialising once with the larger count. *)
Theorem InitializeTrustScores_covers this totalNodes :
  (forall j, trustScores (InitializeTrustScores this totalNodes) !! j
             = if decide (j < totalNodes) then Some 1.0%float else trustScores this !! j)
  /\ (blacklistedNodes (InitializeTrustScores this totalNodes) = blacklistedNodes this
      /\ m_ipv4 (InitializeTrustScores this totalNodes) = m_ipv4 this
      /\ m_randomVar (InitializeTrustScores this totalNodes) = m_randomVar this
      /\ totalDroppedPackets (InitializeTrustScores this totalNodes)
         = totalDroppedPackets this
      /\ totalForwardedPackets (InitializeTrustScores this totalNodes)
         = totalForwardedPackets this
      /\ dropProbability (InitializeTrustScores this totalNodes) = dropProbability this)
  /\ dom (trustScores (InitializeTrustScores this totalNodes))
     = dom (trustScores this) ∪ list_to_set (N.of_nat <$> seq 0 (N.to_nat totalNodes))
  /\ (forall again,
        InitializeTrustScores (InitializeTrustScores this totalNodes) again
        = InitializeTrustScores this (N.max totalNodes again)).
Proof.
  split; [|split; [|split]].
  - apply InitializeTrustScores_lookup.
  - repeat split.
  - apply set_eq. intros j.
    rewrite elem_of_union, !elem_of_dom, InitializeTrustScores_lookup,
      elem_of_list_to_set, list_elem_of_fmap.
    split.
    + case_decide as Hj; [|tauto]. intros _. right.
      exists (N.to_nat j). split; [lia|]. apply elem_of_seq. lia.
    + intros [H|(i & -> & Hi%elem_of_seq)].
      * case_decide; [eauto|exact H].
      * rewrite decide_True by lia. eauto.
  - intros again. apply BlackholeAodv_eq; try reflexivity.
    apply map_eq. intros j. rewrite !InitializeTrustScores_lookup.
    repeat case_decide; try reflexivity; lia.
Qed.

(** X2: [InitializeTrustScores] on a module that has blacklisted nodes: such a
    node below [totalNodes] keeps its place on the blacklist while its score
    goes back to 1.0, so the blacklist is no longer between the thresholds. *)
Theorem late_initialisation_keeps_blacklist this totalNodes nodeId :
  nodeId ∈ blacklistedNodes this ->
  nodeId < totalNodes ->
  nodeId ∈ blacklistedNodes (InitializeTrustScores this totalNodes)
  /\ GetTrustScore (InitializeTrustScores this totalNodes) nodeId = 1.0%float
  /\ ~ sandwiched (InitializeTrustScores this totalNodes).
Proof.
  intros Hin Hlt.
  assert (Hs : trustScores (InitializeTrustScores this totalNodes) !! nodeId = Some 1.0%float).
  { rewrite InitializeTrustScores_lookup, decide_True by assumption. reflexivity. }
  split; [exact Hin|]. split.
  - unfold GetTrustScore. rewrite Hs. reflexivity.
  - intros [Hbl _]. destruct (Hbl nodeId Hin) as (s & Hs' & Hlow).
    rewrite Hs in Hs'. injection Hs' as <-. vm_compute in Hlow. discriminate.
Qed.

(** Node 9 of the sample module is blacklisted; initialising ten nodes
    resets its score and leaves it blacklisted. *)
Lemma late_initialisation_keeps_blacklist_witness :
  9 ∈ blacklistedNodes (InitializeTrustScores (sample_module 0) 10)
  /\ GetTrustScore (InitializeTrustScores (sample_module 0) 10) 9 = 1.0%float.
Proof.
  assert (Hin : 9 ∈ blacklistedNodes (sample_module 0)) by (vm_compute; reflexivity).
  destruct (late_initialisation_keeps_blacklist (sample_module 0) 10 9 Hin eq_refl)
    as (H1 & H2 & _).
  split; assumption.
Defined.

(** X3: Updates of two different nodes can be made in either order: the module
    that results is the same. *)
Theorem updates_of_different_nodes_commute this a b dropped_a dropped_b :
  a ≠ b ->
  UpdateTrustScore (UpdateTrustScore this a dropped_a) b dropped_b
  = UpdateTrustScore (UpdateTrustScore this b dropped_b) a dropped_a.
Proof.
  intros Hab.
  assert (Hga : forall d, GetTrustScore (UpdateTrustScore this b d) a = GetTrustScore this a).
  { intros d. apply GetTrustScore_lookup, UpdateTrustScore_lookup_ne, Hab. }
  assert (Hgb : forall d, GetTrustScore (UpdateTrustScore this a d) b = GetTrustScore this b).
  { intros d. apply GetTrustScore_lookup, UpdateTrustScore_lookup_ne. congruence. }
  apply BlackholeAodv_eq; try reflexivity.
  - apply map_eq. intros j.
    destruct (decide (j = a)) as [->|Hja]; [|destruct (decide (j = b)) as [->|Hjb]].
    + rewrite UpdateTrustScore_lookup_ne by assumption.
      rewrite !UpdateTrustScore_lookup, Hga. reflexivity.
    + rewrite UpdateTrustScore_lookup, Hgb.
      rewrite UpdateTrustScore_lookup_ne by congruence.
      rewrite UpdateTrustScore_lookup. reflexivity.
    + rewrite !UpdateTrustScore_lookup_ne by assumption. reflexivity.
  - apply set_eq. intros j.
    rewrite (elem_of_UpdateTrustScore_blacklist (UpdateTrustScore this a dropped_a) b),
      (elem_of_UpdateTrustScore_blacklist (UpdateTrustScore this b dropped_b) a), Hga, Hgb.
    destruct (decide (j = a)) as [->|Hja]; [|destruct (decide (j = b)) as [->|Hjb]].
    + rewrite decide_False by assumption.
      rewrite elem_of_UpdateTrustScore_blacklist, decide_True by reflexivity.
      rewrite elem_of_UpdateTrustScore_blacklist, decide_False by assumption. reflexivity.
    + rewrite elem_of_UpdateTrustScore_blacklist, decide_False by congruence.
      rewrite elem_of_UpdateTrustScore_blacklist, decide_True by reflexivity. reflexivity.
    + rewrite !elem_of_UpdateTrustScore_blacklist, !decide_False by assumption. reflexivity.
Qed.

(** Two updates of the sample module, node 9 dropping and node 4 forwarding. *)
Lemma updates_of_different_nodes_commute_witness :
  UpdateTrustScore (UpdateTrustScore (sample_module 0) 9 true) 4 false
  = UpdateTrustScore (UpdateTrustScore (sample_module 0) 4 false) 9 true.
Proof.
  apply (updates_of_different_nodes_commute (sample_module 0) 9 4 true false).
  discriminate.
Defined.

Lemma dom_UpdateTrustScore this nodeId dropped :
  dom (trustScores (UpdateTrustScore this nodeId dropped)) = {[nodeId]} ∪ dom (trustScores this).
Proof.
  apply set_eq. intros j. rewrite elem_of_union, elem_of_singleton, !elem_of_dom.
  destruct (decide (j = nodeId)) as [->|Hj].
  - rewrite UpdateTrustScore_lookup. split; eauto.
  - rewrite UpdateTrustScore_lookup_ne by assumption. tauto.
Qed.

(** X4: A run of updates gives an entry to every node it updates and removes
    none; for a node the run does not update, neither the entry nor the
    place on the blacklist changes. *)
Theorem updates_touch_only_their_nodes this us :
  dom (trustScores (run_updates this us))
  = dom (trustScores this) ∪ list_to_set (upd_node <$> us)
  /\ (forall j, j ∉ upd_node <$> us ->
        trustScores (run_updates this us) !! j = trustScores this !! j
        /\ (j ∈ blacklistedNodes (run_updates this us) <-> j ∈ blacklistedNodes this)).
Proof.
  revert this. induction us as [|u us IH]; intros this.
  - split; [|split; reflexivity].
    apply set_eq. intros j.
    rewrite elem_of_union, elem_of_list_to_set. cbn [fmap list_fmap].
    rewrite elem_of_nil. cbn [run_updates foldl]. tauto.
  - rewrite run_updates_cons. destruct (IH (UpdateTrustScore this (upd_node u) (upd_dropped u)))
      as [IHd IHo]. split.
    + rewrite IHd, dom_UpdateTrustScore. cbn [fmap list_fmap].
      rewrite list_to_set_cons. apply set_eq. intros j.
      rewrite !elem_of_union. tauto.
    + intros j Hj. cbn [fmap list_fmap] in Hj.
      apply not_elem_of_cons in Hj as [Hne Hj].
      destruct (IHo j Hj) as [-> ->].
      rewrite UpdateTrustScore_lookup_ne by assumption.
      rewrite elem_of_UpdateTrustScore_blacklist, decide_False by assumption.
      split; reflexivity.
Qed.

(** X5: The clamp at its two ends: a node at 1.0 stays at 1.0 through any number
    of forwards, and a node at 0.0 stays at 0.0 through any number of drops
    and is blacklisted after the first of them. *)
Theorem scores_saturate this nodeId k :
  (GetTrustScore this nodeId = 1.0%float ->
     GetTrustScore (run_updates this (repeated k nodeId false)) nodeId = 1.0%float)
  /\ (GetTrustScore this nodeId = 0.0%float ->
      GetTrustScore (run_updates this (repeated k nodeId true)) nodeId = 0.0%float
      /\ nodeId ∈ blacklistedNodes (run_updates this (repeated (S k) nodeId true))).
Proof.
  assert (Hup : forall n, Nat.iter n (fun s => clamp (s + change false) 0 1) 1.0%float = 1.0%float).
  { induction n as [|n IH]; [reflexivity|]. rewrite Nat.iter_succ, IH. reflexivity. }
  assert (Hdown : forall n, Nat.iter n (fun s => clamp (s + change true) 0 1) 0.0%float = 0.0%float).
  { induction n as [|n IH]; [reflexivity|]. rewrite Nat.iter_succ, IH. reflexivity. }
  split; intros H.
  - rewrite repeated_score, H. apply Hup.
  - split; [rewrite repeated_score, H; apply Hdown|].
    unfold repeated. cbn [replicate]. rewrite run_updates_cons. cbn [upd_node upd_dropped].
    fold (repeated k nodeId true).
    assert (Hone : forall st, GetTrustScore st nodeId = 0.0%float ->
                     nodeId ∈ blacklistedNodes (UpdateTrustScore st nodeId true)
                     /\ GetTrustScore (UpdateTrustScore st nodeId true) nodeId = 0.0%float).
    { intros st Hst. rewrite UpdateTrustScore_score.
      rewrite elem_of_UpdateTrustScore_blacklist, decide_True, Hst by reflexivity.
      split; [left|]; reflexivity. }
    clear Hup Hdown. revert this H. induction k as [|k IH]; intros this H.
    + apply (Hone this H).
    + unfold repeated. cbn [replicate]. rewrite run_updates_cons. cbn [upd_node upd_dropped].
      fold (repeated k nodeId true). apply IH, (Hone this H).
Qed.

(** A node no update has touched reads 1.0 and stays there under forwards. *)
Lemma scores_saturate_witness :
  GetTrustScore (run_updates (sample_module 0) (repeated 5 4 false)) 4 = 1.0%float.
Proof.
  destruct (scores_saturate (sample_module 0) 4 5) as [Hup _].
  apply Hup. vm_compute. reflexivity.
Defined.

End LedgerAlgebra.

(** * More on the forwarding decision *)

Ltac route_cases :=
  unfold Mitigation.RouteInput, Mitigation.blacklist_check, Mitigation.deliver_or_forward;
  repeat match goal with
         | |- context [match Mitigation.m_ipv4 ?t with _ => _ end] =>
           destruct (Mitigation.m_ipv4 t) eqn:?
         | |- context [if (?a =? ?b)%Z then _ else _] => destruct (Z.eqb_spec a b)
         | |- context [decide (?x ∈ ?X)] => destruct (decide (x ∈ X))
         | |- context [GetValue ?rv] => progress cbn [GetValue]
         | |- context [if (?a <? ?b)%float then _ else _] => destruct (a <? b)%float eqn:?
         | |- context [if IsDestinationAddress ?i ?a ?f then _ else _] =>
           destruct (IsDestinationAddress i a f) eqn:?
         | |- context [if negb (IsNull ?c) then _ else _] =>
           destruct (IsNull c) eqn:?; cbn [negb]
         end.

Section DecisionFacts.
Import Mitigation.
Implicit Types (this : BlackholeAodv) (header : Ipv4Header).

(** X6: [RouteInput] never changes the drop probability, the bound [Ipv4]
    object or the draws the generator will give, and of the ledger it can
    change only the entry and the blacklist membership of the packet's
    destination. *)
Theorem RouteInput_touches_destination_only this packet header device ucb lcb :
  let this' := (RouteInput this packet header device ucb lcb).2 in
  dropProbability this' = dropProbability this
  /\ m_ipv4 this' = m_ipv4 this
  /\ rv_tape (m_randomVar this') = rv_tape (m_randomVar this)
  /\ (forall j, j ≠ GetDestination header ->
        trustScores this' !! j = trustScores this !! j
        /\ (j ∈ blacklistedNodes this' <-> j ∈ blacklistedNodes this)).
Proof.
  cbv zeta. split; [|split; [|split]].
  - route_cases; reflexivity.
  - route_cases; cbn; congruence.
  - route_cases; reflexivity.
  - intros j Hj. route_cases; cbn [snd]; try (split; reflexivity).
    all: rewrite UpdateTrustScore_lookup_ne by assumption.
    all: rewrite elem_of_UpdateTrustScore_blacklist, decide_False by assumption.
    all: split; reflexivity.
Qed.

(** X7: One call of [RouteInput] counts the packet at most once: either no
    counter moves, or [totalDroppedPackets] goes up by one (then the call
    returns false and invokes nothing), or [totalForwardedPackets] goes up
    by one; never both. A call that returns true has not counted a drop. *)
Theorem RouteInput_counts_once this packet header device ucb lcb :
  let result := RouteInput this packet header device ucb lcb in
  let d := totalDroppedPackets this in
  let f := totalForwardedPackets this in
  let d' := totalDroppedPackets result.2 in
  let f' := totalForwardedPackets result.2 in
  ((d' = d /\ f' = f)
   \/ (d' = uint32_incr d /\ f' = f /\ result.1 = drop)
   \/ (d' = d /\ f' = uint32_incr f))
  /\ (returned result.1 = true -> d' = d).
Proof.
  cbv zeta. route_cases; cbn; split;
    first [ intros _; reflexivity | discriminate
          | left; split; reflexivity
          | right; left; repeat split; reflexivity
          | right; right; split; reflexivity ].
Qed.

(** X8: The result of [RouteInput] and the callbacks: the call returns true
    exactly when it invoked a callback; it invokes the local-delivery
    callback only when that is not null, with the packet, the header and
    the resolved interface, and then the ledger and the counters are as
    before; it invokes the forward callback only when that is not null, with
    a route to the packet's destination from the local address and device of
    the resolved interface, and then the packet is counted as forwarded. *)
Theorem RouteInput_invokes_present_callbacks this packet header device ucb lcb :
  let result := RouteInput this packet header device ucb lcb in
  (returned result.1 = true <-> invoked result.1 ≠ None)
  /\ (forall p h iface,
        invoked result.1 = Some (LocalDeliver p h iface) ->
        IsNull lcb = false /\ p = packet /\ h = header
        /\ (exists ipv4, m_ipv4 this = Some ipv4
              /\ iface = uint32_of_int32 (GetInterfaceForDevice ipv4 device)
              /\ IsDestinationAddress ipv4 (GetDestination header) iface = true)
        /\ trustScores result.2 = trustScores this
        /\ blacklistedNodes result.2 = blacklistedNodes this
        /\ totalDroppedPackets result.2 = totalDroppedPackets this
        /\ totalForwardedPackets result.2 = totalForwardedPackets this)
  /\ (forall route p h,
        invoked result.1 = Some (UnicastForward route p h) ->
        IsNull ucb = false /\ p = packet /\ h = header
        /\ route_destination route = GetDestination header
        /\ (exists ipv4, m_ipv4 this = Some ipv4
              /\ route_source route
                 = GetLocal ipv4 (uint32_of_int32 (GetInterfaceForDevice ipv4 device))
              /\ route_output_device route
                 = GetNetDevice ipv4 (uint32_of_int32 (GetInterfaceForDevice ipv4 device)))
        /\ totalForwardedPackets result.2 = uint32_incr (totalForwardedPackets this)
        /\ totalDroppedPackets result.2 = totalDroppedPackets this).
Proof.
  cbv zeta. split; [|split].
  - route_cases; cbn; split; congruence.
  - intros p h iface. route_cases; cbn; try discriminate.
    all: intros [= <- <- <-]; repeat split; eauto.
  - intros route p h. route_cases; cbn; try discriminate.
    all: intros [= <- <- <-]; repeat split; eauto.
Qed.

(** X9: A packet that has to be forwarded while the forward callback is null:
    the call returns false and invokes nothing, yet the packet is counted as
    forwarded and the destination is rewarded. *)
Theorem null_forward_callback_still_counts this (ipv4 : Ipv4) packet header device ucb lcb :
  m_ipv4 this = Some ipv4 ->
  GetInterfaceForDevice ipv4 device ≠ (-1)%Z ->
  GetDestination header ∉ blacklistedNodes this ->
  IsDestinationAddress ipv4 (GetDestination header)
    (uint32_of_int32 (GetInterfaceForDevice ipv4 device)) = false ->
  IsNull ucb = true ->
  let result := RouteInput this packet header device ucb lcb in
  result.1 = drop
  /\ totalForwardedPackets result.2 = uint32_incr (totalForwardedPackets this)
  /\ totalDroppedPackets result.2 = totalDroppedPackets this
  /\ trustScores result.2 !! GetDestination header
     = Some (clamp (GetTrustScore this (GetDestination header) + 0.1) 0.0 1.0).
Proof.
  intros Hb Hi Hout Hd Hu result. unfold result.
  rewrite (RouteInput_bound _ _ _ _ _ _ _ Hb Hi), (blacklist_check_clear _ _ Hout).
  unfold deliver_or_forward. rewrite Hd, Hu. cbn [negb fst snd].
  repeat split. rewrite UpdateTrustScore_lookup. reflexivity.
Qed.

(** Node 4 of the sample module is trusted and is not the host; without a
    forward callback the packet is refused but counted and rewarded. *)
Lemma null_forward_callback_still_counts_witness :
  let result := RouteInput (sample_module 0) 0 (sample_header 4) 1 null present in
  returned result.1 = false
  /\ totalForwardedPackets result.2 = 1.
Proof.
  cbv zeta.
  assert (Hout : GetDestination (sample_header 4) ∉ blacklistedNodes (sample_module 0))
    by (vm_compute; discriminate).
  assert (Hi : GetInterfaceForDevice (single_homed 3) 1 ≠ (-1)%Z) by (vm_compute; discriminate).
  destruct (null_forward_callback_still_counts (sample_module 0) (single_homed 3)
              0 (sample_header 4) 1 null present eq_refl Hi Hout eq_refl eq_refl)
    as (-> & -> & _).
  split; reflexivity.
Defined.

(** X10: The generator is read exactly once by a call that gets as far as the
    blacklist check with a blacklisted destination, and not at all by any
    other call. For a bound module, a resolved interface and a destination
    that is not blacklisted, no drop is counted and the call returns true
    exactly when the callback it needs is present. *)
Theorem RouteInput_draws_for_blacklisted_only this packet header device ucb lcb :
  let result := RouteInput this packet header device ucb lcb in
  m_randomVar result.2
  = match m_ipv4 this with
    | Some ipv4 =>
      if decide (GetInterfaceForDevice ipv4 device ≠ (-1)%Z
                 /\ GetDestination header ∈ blacklistedNodes this)
      then (GetValue (m_randomVar this)).2
      else m_randomVar this
    | None => m_randomVar this
    end
  /\ (forall ipv4,
        m_ipv4 this = Some ipv4 ->
        GetInterfaceForDevice ipv4 device ≠ (-1)%Z ->
        GetDestination header ∉ blacklistedNodes this ->
        totalDroppedPackets result.2 = totalDroppedPackets this
        /\ returned result.1
           = negb (IsNull (if IsDestinationAddress ipv4 (GetDestination header)
                              (uint32_of_int32 (GetInterfaceForDevice ipv4 device))
                           then lcb else ucb))).
Proof.
  cbv zeta. split.
  - route_cases; cbn; try reflexivity.
    all: try (rewrite decide_True by (split; assumption); reflexivity).
    all: rewrite decide_False by tauto; reflexivity.
  - intros ipv4 Hb Hi Hout.
    rewrite (RouteInput_bound _ _ _ _ _ _ _ Hb Hi), (blacklist_check_clear _ _ Hout).
    unfold deliver_or_forward.
    destruct (IsDestinationAddress _ _ _); [destruct (IsNull lcb)|destruct (IsNull ucb)];
      split; reflexivity.
Qed.

End DecisionFacts.

(** * The module under any run of calls *)

Section Interface.
Import Mitigation.
Implicit Types (this : BlackholeAodv) (c : Call) (cs : list Call).

(** The ledger after [RouteInput] is the one before, or that after one
    [UpdateTrustScore] of the destination. *)
Lemma RouteInput_ledger this packet header device ucb lcb :
  let this' := (RouteInput this packet header device ucb lcb).2 in
  (trustScores this' = trustScores this /\ blacklistedNodes this' = blacklistedNodes this)
  \/ exists st dropped,
       trustScores st = trustScores this
       /\ blacklistedNodes st = blacklistedNodes this
       /\ this' = UpdateTrustScore st (GetDestination header) dropped.
Proof.
  cbv zeta. route_cases; cbn [snd];
    first [ left; split; reflexivity
          | right; eexists _, _; split; [|split; [|reflexivity]]; reflexivity ].
Qed.

Lemma run_calls_cons this c cs : run_calls this (c :: cs) = run_calls (call this c) cs.
Proof. reflexivity. Qed.

Lemma scores_in_unit_ledger this this' :
  trustScores this' = trustScores this -> scores_in_unit this -> scores_in_unit this'.
Proof. unfold scores_in_unit. intros ->. trivial. Qed.

Lemma call_in_unit this c : scores_in_unit this -> scores_in_unit (call this c).
Proof.
  intros H. destruct c as [ipv4|probability|totalNodes|nodeId dropped|packet header device ucb lcb];
    cbn [call].
  - exact H.
  - unfold SetDropProbability. destruct (_ || _); exact H.
  - intros j s. rewrite InitializeTrustScores_lookup. case_decide.
    + intros [= <-]. reflexivity.
    + apply H.
  - apply UpdateTrustScore_in_unit, H.
  - destruct (RouteInput_ledger this packet header device ucb lcb)
      as [[Hts _]|(st & dropped & Hts & _ & ->)].
    + apply (scores_in_unit_ledger _ _ Hts H).
    + apply UpdateTrustScore_in_unit, (scores_in_unit_ledger _ _ Hts H).
Qed.

(** X11: Whatever is called on the module, in whatever order, every stored score
    stays in [0.0, 1.0] once the ledger's scores are there: decisions and a
    late or repeated initialisation included. *)
Theorem scores_in_unit_under_calls this cs :
  scores_in_unit this -> scores_in_unit (run_calls this cs).
Proof.
  revert this. induction cs as [|c cs IH]; intros this H; [exact H|].
  rewrite run_calls_cons. apply IH, call_in_unit, H.
Qed.

(** A run that binds the sample module anew, decides on two packets, resets
    the ledger and updates node 2. *)
Lemma scores_in_unit_under_calls_witness :
  scores_in_unit
    (run_calls (sample_module 0.5)
       [ CallRouteInput 0 (sample_header 9) 1 present present;
         CallSetDropProbability 1.0;
         CallRouteInput 1 (sample_header 9) 1 present present;
         CallInitializeTrustScores 4;
         CallUpdateTrustScore 2 true ]).
Proof.
  apply scores_in_unit_under_calls.
  unfold sample_module. apply (scores_in_unit_ledger _ (run_updates _ _) eq_refl).
  apply run_updates_in_unit, started_in_unit.
Defined.

Lemma call_dom this c : dom (trustScores this) ⊆ dom (trustScores (call this c)).
Proof.
  destruct c as [ipv4|probability|totalNodes|nodeId dropped|packet header device ucb lcb];
    cbn [call].
  - reflexivity.
  - unfold SetDropProbability. destruct (_ || _); reflexivity.
  - intros j. rewrite !elem_of_dom, InitializeTrustScores_lookup.
    case_decide; eauto.
  - rewrite dom_UpdateTrustScore. apply union_subseteq_r.
  - destruct (RouteInput_ledger this packet header device ucb lcb)
      as [[-> _]|(st & dropped & <- & _ & ->)]; [reflexivity|].
    rewrite dom_UpdateTrustScore. apply union_subseteq_r.
Qed.

Lemma call_blacklist_has_entries this c :
  blacklistedNodes this ⊆ dom (trustScores this) ->
  blacklistedNodes (call this c) ⊆ dom (trustScores (call this c)).
Proof.
  intros H.
  assert (Hupd : forall st nodeId dropped,
            blacklistedNodes st ⊆ dom (trustScores st) ->
            blacklistedNodes (UpdateTrustScore st nodeId dropped)
            ⊆ dom (trustScores (UpdateTrustScore st nodeId dropped))).
  { intros st nodeId dropped Hst j.
    rewrite dom_UpdateTrustScore, elem_of_UpdateTrustScore_blacklist, elem_of_union,
      elem_of_singleton.
    destruct (decide (j = nodeId)); [tauto|]. intros Hj. right. apply Hst, Hj. }
  destruct c as [ipv4|probability|totalNodes|nodeId dropped|packet header device ucb lcb];
    cbn [call].
  - exact H.
  - unfold SetDropProbability. destruct (_ || _); exact H.
  - intros j Hj. apply (call_dom this (CallInitializeTrustScores totalNodes)), H, Hj.
  - apply Hupd, H.
  - destruct (RouteInput_ledger this packet header device ucb lcb)
      as [[-> ->]|(st & dropped & Hts & Hbl & ->)]; [exact H|].
    apply Hupd. rewrite Hts, Hbl. exact H.
Qed.

(** X12: From construction on, under any run of calls, every blacklisted node has
    an entry in the ledger; so a node without entry reads the default 1.0
    and is not blacklisted. *)
Theorem blacklisted_nodes_have_entries rv cs :
  let this := run_calls (new rv) cs in
  blacklistedNodes this ⊆ dom (trustScores this)
  /\ (forall nodeId, trustScores this !! nodeId = None ->
        GetTrustScore this nodeId = 1.0%float /\ nodeId ∉ blacklistedNodes this).
Proof.
  cbv zeta.
  assert (H : forall st, blacklistedNodes st ⊆ dom (trustScores st) ->
                blacklistedNodes (run_calls st cs) ⊆ dom (trustScores (run_calls st cs))).
  { induction cs as [|c cs IH]; intros st Hst; [exact Hst|].
    rewrite run_calls_cons. apply IH, call_blacklist_has_entries, Hst. }
  assert (H0 : blacklistedNodes (run_calls (new rv) cs)
               ⊆ dom (trustScores (run_calls (new rv) cs))).
  { apply H. intros j Hj. exfalso. apply (not_elem_of_empty _ Hj). }
  split; [exact H0|].
  intros nodeId Hnone. split.
  - unfold GetTrustScore. rewrite Hnone. reflexivity.
  - intros Hin. apply H0, elem_of_dom in Hin. rewrite Hnone in Hin.
    destruct Hin as [? [=]].
Qed.

(** X13: No call removes an entry from the ledger. *)
Theorem ledger_never_shrinks this cs :
  dom (trustScores this) ⊆ dom (trustScores (run_calls this cs)).
Proof.
  revert this. induction cs as [|c cs IH]; intros this; [reflexivity|].
  rewrite run_calls_cons. etransitivity; [apply call_dom|apply IH].
Qed.

Lemma uint32_incr_le x : uint32_incr x ≤ x + 1.
Proof. unfold uint32_incr, uint32_modulus. apply N.Div0.mod_le. Qed.

Lemma uint32_incr_small x : x + 1 < 2 ^ 32 -> uint32_incr x = x + 1.
Proof. unfold uint32_incr, uint32_modulus. apply N.mod_small. Qed.

Lemma decisions_cons c cs :
  decisions (c :: cs) = (if is_RouteInput c then 1 else 0) + decisions cs.
Proof.
  unfold decisions. cbn [List.filter]. destruct (is_RouteInput c); cbn [length]; lia.
Qed.

Lemma RouteInput_counters_generator this packet header device ucb lcb :
  let this' := (RouteInput this packet header device ucb lcb).2 in
  let d := totalDroppedPackets this in
  let f := totalForwardedPackets this in
  ((totalDroppedPackets this' = d /\ totalForwardedPackets this' = f)
   \/ (totalDroppedPackets this' = uint32_incr d /\ totalForwardedPackets this' = f)
   \/ (totalDroppedPackets this' = d /\ totalForwardedPackets this' = uint32_incr f))
  /\ dropProbability this' = dropProbability this
  /\ rv_tape (m_randomVar this') = rv_tape (m_randomVar this)
  /\ (rv_pos (m_randomVar this') = rv_pos (m_randomVar this)
      \/ rv_pos (m_randomVar this') = S (rv_pos (m_randomVar this))).
Proof.
  cbv zeta. route_cases; cbn; repeat split; auto.
Qed.

(** What one call does to the counters and to the generator. *)
Lemma call_counts this c :
  let k := if is_RouteInput c then 1 else 0 in
  let d := totalDroppedPackets this in
  let f := totalForwardedPackets this in
  let d' := totalDroppedPackets (call this c) in
  let f' := totalForwardedPackets (call this c) in
  d' + f' ≤ d + f + k
  /\ (d + f + k < 2 ^ 32 -> d ≤ d' /\ f ≤ f')
  /\ rv_tape (m_randomVar (call this c)) = rv_tape (m_randomVar this)
  /\ (rv_pos (m_randomVar this) <= rv_pos (m_randomVar (call this c))
      <= rv_pos (m_randomVar this) + N.to_nat k)%nat.
Proof.
  cbv zeta.
  destruct c as [ipv4|probability|totalNodes|nodeId dropped|packet header device ucb lcb];
    cbn [call is_RouteInput].
  1,3,4: cbn; repeat split; lia.
  - unfold SetDropProbability. destruct (_ || _); cbn; repeat split; lia.
  - destruct (RouteInput_counters_generator this packet header device ucb lcb)
      as (Hc & _ & Ht & Hpos).
    cbv zeta in Hc, Ht, Hpos.
    pose proof (uint32_incr_le (totalDroppedPackets this)) as Hd.
    pose proof (uint32_incr_le (totalForwardedPackets this)) as Hf.
    split; [|split; [|split]].
    + destruct Hc as [[-> ->]|[[-> ->]|[-> ->]]]; lia.
    + intros Hsmall.
      destruct Hc as [[-> ->]|[[-> ->]|[-> ->]]];
        rewrite ?uint32_incr_small by lia; lia.
    + exact Ht.
    + destruct Hpos as [->| ->]; lia.
Qed.

(** X14: Over any run of calls the two counters together count at most the
    [RouteInput] calls of the run; as long as that many more packets do not
    take the sum to 2^32, neither counter ever goes down. *)
Theorem counters_count_decisions this cs :
  totalDroppedPackets (run_calls this cs) + totalForwardedPackets (run_calls this cs)
  ≤ totalDroppedPackets this + totalForwardedPackets this + decisions cs
  /\ (totalDroppedPackets this + totalForwardedPackets this + decisions cs < 2 ^ 32 ->
      totalDroppedPackets this ≤ totalDroppedPackets (run_calls this cs)
      /\ totalForwardedPackets this ≤ totalForwardedPackets (run_calls this cs)).
Proof.
  revert this. induction cs as [|c cs IH]; intros this.
  - cbn [run_calls foldl]. unfold decisions. cbn. split; [lia|]. intros _. split; lia.
  - rewrite run_calls_cons, decisions_cons.
    destruct (call_counts this c) as (Hsum & Hmono & _). cbv zeta in Hsum, Hmono.
    destruct (IH (call this c)) as [IHsum IHmono]. split; [lia|].
    intros Hsmall. destruct Hmono as [Hd Hf]; [lia|].
    destruct IHmono as [Hd' Hf']; [lia|]. split; lia.
Qed.

(** Two decisions of the sample module among other calls: one forward. *)
Lemma counters_count_decisions_witness :
  let cs := [ CallRouteInput 0 (sample_header 4) 1 present present;
              CallUpdateTrustScore 4 true;
              CallRouteInput 1 (sample_header 3) 1 present present ] in
  totalDroppedPackets (run_calls (sample_module 0) cs)
  + totalForwardedPackets (run_calls (sample_module 0) cs) ≤ 2
  /\ 0 ≤ totalForwardedPackets (run_calls (sample_module 0) cs).
Proof.
  cbv zeta.
  destruct (counters_count_decisions (sample_module 0)
              [ CallRouteInput 0 (sample_header 4) 1 present present;
                CallUpdateTrustScore 4 true;
                CallRouteInput 1 (sample_header 3) 1 present present ])
    as [Hsum Hmono].
  split; [exact Hsum|]. apply Hmono. vm_compute. reflexivity.
Defined.

(** X15: Over any run of calls the draws the generator will give stay the same,
    its position never goes back, and it advances by at most one per
    [RouteInput] call. *)
Theorem generator_read_by_decisions_only this cs :
  rv_tape (m_randomVar (run_calls this cs)) = rv_tape (m_randomVar this)
  /\ (rv_pos (m_randomVar this) <= rv_pos (m_randomVar (run_calls this cs))
      <= rv_pos (m_randomVar this) + N.to_nat (decisions cs))%nat.
Proof.
  revert this. induction cs as [|c cs IH]; intros this.
  - cbn [run_calls foldl]. split; [reflexivity|lia].
  - rewrite run_calls_cons, decisions_cons.
    destruct (call_counts this c) as (_ & _ & Ht & Hp). cbv zeta in Hp.
    destruct (IH (call this c)) as [IHt IHp]. split; [congruence|].
    destruct (is_RouteInput c); lia.
Qed.




Lemma GetTrustScore_all_ones this nodeId :
  (forall n s, trustScores this !! n = Some s -> s = 1.0%float) ->
  GetTrustScore this nodeId = 1.0%float.
Proof.
  intros H. unfold GetTrustScore.
  destruct (trustScores this !! nodeId) as [s|] eqn:E; [apply (H _ _ E)|reflexivity].
Qed.

(** A forward on a module without blacklist whose scores are all 1.0 leaves
    it so. *)
Lemma forward_keeps_full_trust this nodeId :
  blacklistedNodes this = ∅ ->
  (forall n s, trustScores this !! n = Some s -> s = 1.0%float) ->
  blacklistedNodes (UpdateTrustScore this nodeId false) = ∅
  /\ (forall n s, trustScores (UpdateTrustScore this nodeId false) !! n = Some s ->
        s = 1.0%float).
Proof.
  intros Hbl Hts. pose proof (GetTrustScore_all_ones this nodeId Hts) as Hg. split.
  - apply set_eq. intros j.
    rewrite elem_of_UpdateTrustScore_blacklist, Hg, Hbl.
    pose proof (not_elem_of_empty (C:=gset N) j) as Hj.
    pose proof (not_elem_of_empty (C:=gset N) nodeId) as Hn.
    destruct (decide (j = nodeId)); [|tauto].
    split; [|tauto]. intros [H|[H _]]; [vm_compute in H; discriminate|contradiction].
  - intros n s. destruct (decide (n = nodeId)) as [->|Hne].
    + rewrite UpdateTrustScore_lookup, Hg. intros [= <-]. reflexivity.
    + rewrite UpdateTrustScore_lookup_ne by assumption. apply Hts.
Qed.

(** X17: The decision engine does not start the blacklist. From construction,
    under any run of calls none of which reports a drop through
    [UpdateTrustScore], the blacklist stays empty, every stored score is
    1.0, no packet is counted as dropped and the generator is never read:
    [RouteInput] penalises only a destination that is already blacklisted. *)
Theorem decisions_alone_never_blacklist rv cs :
  reports_no_drop cs ->
  let this := run_calls (new rv) cs in
  blacklistedNodes this = ∅
  /\ (forall n s, trustScores this !! n = Some s -> s = 1.0%float)
  /\ totalDroppedPackets this = 0
  /\ m_randomVar this = rv.
Proof.
  intros Hcs. cbv zeta.
  assert (H : forall st,
             blacklistedNodes st = ∅
             /\ (forall n s, trustScores st !! n = Some s -> s = 1.0%float)
             /\ totalDroppedPackets st = 0
             /\ m_randomVar st = rv ->
             blacklistedNodes (run_calls st cs) = ∅
             /\ (forall n s, trustScores (run_calls st cs) !! n = Some s -> s = 1.0%float)
             /\ totalDroppedPackets (run_calls st cs) = 0
             /\ m_randomVar (run_calls st cs) = rv).
  { induction cs as [|c cs IH]; intros st Hst; [exact Hst|].
    apply Forall_cons in Hcs as [Hc Hcs]. rewrite run_calls_cons. apply (IH Hcs).
    destruct Hst as (Hbl & Hts & Hd & Hrv).
    destruct c as [ipv4|probability|totalNodes|nodeId dropped|packet header device ucb lcb];
      cbn [call].
    - repeat split; assumption.
    - unfold SetDropProbability. destruct (_ || _); repeat split; assumption.
    - split; [exact Hbl|]. split; [|split; assumption].
      intros n s. rewrite InitializeTrustScores_lookup. case_decide.
      + intros [= <-]. reflexivity.
      + apply Hts.
    - destruct dropped; [contradiction|].
      destruct (forward_keeps_full_trust st nodeId Hbl Hts) as [Hbl' Hts'].
      repeat split; assumption.
    - assert (Hout : GetDestination header ∉ blacklistedNodes st).
      { rewrite Hbl. apply not_elem_of_empty. }
      unfold RouteInput. destruct (m_ipv4 st) as [ipv4|]; [|repeat split; assumption].
      destruct (_ =? _)%Z; [repeat split; assumption|].
      rewrite (blacklist_check_clear _ _ Hout). unfold deliver_or_forward.
      destruct (IsDestinationAddress _ _ _).
      + destruct (negb _); repeat split; assumption.
      + destruct (forward_keeps_full_trust
                    (set_counters st (totalDroppedPackets st)
                       (uint32_incr (totalForwardedPackets st)))
                    (GetDestination header) Hbl Hts) as [Hbl' Hts'].
        destruct (negb _); repeat split; assumption. }
  apply H. cbn. repeat split; try reflexivity.
  intros n s. rewrite lookup_empty. discriminate.
Qed.

(** A bound module that decides on packets for three destinations with the
    drop probability at 1.0: nobody is blacklisted, nothing is dropped. *)
Lemma decisions_alone_never_blacklist_witness :
  let cs := [ CallSetIpv4 (Some (single_homed 3));
              CallInitializeTrustScores 10;
              CallSetDropProbability 1.0;
              CallRouteInput 0 (sample_header 9) 1 present present;
              CallRouteInput 1 (sample_header 4) 1 null present;
              CallUpdateTrustScore 9 false;
              CallRouteInput 2 (sample_header 3) 1 present present ] in
  blacklistedNodes (run_calls (new (constant_draws 0)) cs) = ∅
  /\ totalDroppedPackets (run_calls (new (constant_draws 0)) cs) = 0.
Proof.
  cbv zeta.
  refine (let H := decisions_alone_never_blacklist (constant_draws 0) _ _ in
          conj (proj1 H) (proj1 (proj2 (proj2 H)))).
  repeat constructor.
Defined.

End Interface.

(** * More on the plain attacker *)

Section Attacker.
Implicit Types (this : Attack.BlackholeAodv) (i : Attack.Inbound).

(** One packet: the generator is read once; nothing but the draw and the
    drop probability decides; no callback is invoked; the packet is counted
    once, as dropped when the call returns false and as forwarded when it
    returns true. *)
Lemma Attack_receive_step this i :
  let r := (Attack.receive this i).1 in
  let this' := (Attack.receive this i).2 in
  Attack.m_randomVar this' = (GetValue (Attack.m_randomVar this)).2
  /\ Attack.dropProbability this' = Attack.dropProbability this
  /\ Attack.m_ipv4 this' = Attack.m_ipv4 this
  /\ invoked r = None
  /\ returned r
     = negb ((GetValue (Attack.m_randomVar this)).1 <=? Attack.dropProbability this)%float
  /\ Attack.totalDroppedPackets this'
     = (if returned r then Attack.totalDroppedPackets this
        else uint32_incr (Attack.totalDroppedPackets this))
  /\ Attack.totalForwardedPackets this'
     = (if returned r then uint32_incr (Attack.totalForwardedPackets this)
        else Attack.totalForwardedPackets this).
Proof.
  cbv zeta. unfold Attack.receive, Attack.RouteInput. cbn [GetValue fst snd].
  destruct (_ <=? _)%float; cbn; repeat split.
Qed.

Lemma Attack_run_packets_cons this i inbound :
  Attack.run_packets this (i :: inbound)
  = ((Attack.receive this i).1 :: (Attack.run_packets (Attack.receive this i).2 inbound).1,
     (Attack.run_packets (Attack.receive this i).2 inbound).2).
Proof.
  cbn [Attack.run_packets]. destruct (Attack.receive this i) as [r this1].
  cbn [fst snd]. destruct (Attack.run_packets this1 inbound) as [rs this2]. reflexivity.
Qed.

Lemma uint32_incr_mod x : uint32_incr x mod 2 ^ 32 = (x + 1) mod 2 ^ 32.
Proof. unfold uint32_incr, uint32_modulus. apply N.Div0.mod_mod. Qed.

(** X18: The attacker over a run of packets: one decision and one draw per
    packet, the [k]-th decision being false exactly when the [k]-th draw is
    at most the drop probability; no callback is ever invoked, also not for
    a packet reported as forwarded; the drop probability and the binding do
    not change; modulo 2^32, [totalDroppedPackets] has grown by the number
    of false decisions and [totalForwardedPackets] by the number of true
    ones. *)
Theorem attacker_accounts_for_every_packet this inbound :
  let rs := (Attack.run_packets this inbound).1 in
  let this' := (Attack.run_packets this inbound).2 in
  let rv := Attack.m_randomVar this in
  length rs = length inbound
  /\ (forall k r, rs !! k = Some r ->
        invoked r = None
        /\ returned r
           = negb (rv_tape rv (rv_pos rv + k) <=? Attack.dropProbability this)%float)
  /\ rv_tape (Attack.m_randomVar this') = rv_tape rv
  /\ rv_pos (Attack.m_randomVar this') = (rv_pos rv + length inbound)%nat
  /\ Attack.dropProbability this' = Attack.dropProbability this
  /\ Attack.m_ipv4 this' = Attack.m_ipv4 this
  /\ Attack.totalDroppedPackets this' mod 2 ^ 32
     = (Attack.totalDroppedPackets this
        + N.of_nat (length (List.filter (fun r => negb (returned r)) rs))) mod 2 ^ 32
  /\ Attack.totalForwardedPackets this' mod 2 ^ 32
     = (Attack.totalForwardedPackets this
        + N.of_nat (length (List.filter returned rs))) mod 2 ^ 32.
Proof.
  cbv zeta. revert this. induction inbound as [|i inbound IH]; intros this.
  - cbn [Attack.run_packets fst snd length List.filter].
    rewrite !N.add_0_r, Nat.add_0_r.
    split; [reflexivity|].
    split; [intros k r Hk; rewrite lookup_nil in Hk; discriminate|]. repeat split.
  - rewrite Attack_run_packets_cons. cbn [fst snd length].
    destruct (Attack_receive_step this i) as (Hrv & Hp & Hip & Hinv & Hret & Hd & Hf).
    cbv zeta in Hrv, Hp, Hip, Hinv, Hret, Hd, Hf.
    destruct (IH (Attack.receive this i).2)
      as (IHlen & IHrs & IHtape & IHpos & IHp & IHip & IHd & IHf).
    rewrite Hrv in IHrs, IHtape, IHpos. cbn [GetValue snd rv_tape rv_pos] in IHrs, IHtape, IHpos.
    rewrite Hp in IHrs.
    split; [congruence|]. split; [|split; [exact IHtape|split; [lia|split; [congruence|
      split; [congruence|]]]]].
    + intros [|k] r; cbn [lookup list_lookup].
      * intros [= <-]. rewrite Nat.add_0_r. split; [exact Hinv|exact Hret].
      * intros Hk. destruct (IHrs k r Hk) as [Hi Hr]. split; [exact Hi|].
        rewrite Hr. replace (rv_pos (Attack.m_randomVar this) + S k)%nat
          with (S (rv_pos (Attack.m_randomVar this)) + k)%nat by lia. reflexivity.
    + rewrite IHd, IHf, Hd, Hf. cbn [List.filter].
      destruct (returned (Attack.receive this i).1); cbn [negb length]; split.
      all: rewrite ?Nat2N.inj_succ, <- ?N.add_1_l.
      all: rewrite <- ?(N.Div0.add_mod_idemp_l (uint32_incr _)), ?uint32_incr_mod.
      all: rewrite ?N.Div0.add_mod_idemp_l; f_equal; lia.
Qed.

(** X19: A blackhole in full: with drop probability 1.0 and a generator whose
    draws are all in [0.0, 1.0), every decision of a run is false and
    [totalForwardedPackets] does not move. *)
Theorem attacker_drops_every_packet this inbound :
  Attack.dropProbability this = 1.0%float ->
  (forall k, is_draw (rv_tape (Attack.m_randomVar this) k) = true) ->
  Forall (fun r => returned r = false) (Attack.run_packets this inbound).1
  /\ Attack.totalForwardedPackets (Attack.run_packets this inbound).2
     = Attack.totalForwardedPackets this.
Proof.
  revert this. induction inbound as [|i inbound IH]; intros this Hp Hdraws.
  - cbn. split; [constructor|reflexivity].
  - rewrite Attack_run_packets_cons. cbn [fst snd].
    destruct (Attack_receive_step this i) as (Hrv & Hp' & _ & _ & Hret & _ & Hf).
    cbv zeta in Hrv, Hp', Hret, Hf.
    assert (Hfalse : returned (Attack.receive this i).1 = false).
    { rewrite Hret, Hp. cbn [GetValue fst].
      specialize (Hdraws (rv_pos (Attack.m_randomVar this))).
      apply andb_prop in Hdraws as [_ Hlt]. rewrite (ltb_leb _ _ Hlt). reflexivity. }
    destruct (IH (Attack.receive this i).2) as [IHrs IHf].
    + congruence.
    + intros k. rewrite Hrv. cbn [GetValue snd rv_tape]. apply Hdraws.
    + split; [constructor; assumption|]. rewrite IHf, Hf, Hfalse. reflexivity.
Qed.

(** Three packets through a fresh attacker that draws 0.5. *)
Lemma attacker_drops_every_packet_witness :
  let i := {| Attack.in_packet := 0; Attack.in_header := sample_header 2;
              Attack.in_device := 1; Attack.in_ucb := present; Attack.in_lcb := present |} in
  Attack.totalForwardedPackets
    (Attack.run_packets (Attack.new (constant_draws 0.5)) [i; i; i]).2 = 0.
Proof.
  cbv zeta.
  refine (proj2 (attacker_drops_every_packet (Attack.new (constant_draws 0.5)) _ eq_refl _)).
  intros k. reflexivity.
Defined.

End Attacker.

(** * More on the telemetry *)

Section Snapshot.
Import Mitigation.

#[local] Instance key_le_transitive : Transitive key_le.
Proof. intros x y z. unfold key_le. lia. Qed.

#[local] Instance key_le_total : Total key_le.
Proof. intros x y. unfold key_le. lia. Qed.

#[local] Instance N_le_total : Total N.le.
Proof. intros x y. lia. Qed.

Lemma sorted_keys_strict (l : list (N * float)) :
  StronglySorted key_le l -> NoDup l.*1 ->
  StronglySorted (fun x y => x.1 < y.1) l.
Proof.
  induction 1 as [|x l Hl IH Hx]; intros Hnd; [constructor|].
  cbn [fmap list_fmap] in Hnd. apply NoDup_cons in Hnd as [Hnotin Hnd].
  constructor; [apply IH, Hnd|].
  apply Forall_forall. intros y Hy.
  pose proof (proj1 (Forall_forall _ _) Hx y Hy) as Hle. unfold key_le in Hle.
  assert (x.1 ≠ y.1).
  { intros E. apply Hnotin. rewrite E. apply list_elem_of_fmap. eauto. }
  lia.
Qed.

Lemma sorted_nodes_strict (l : list N) :
  StronglySorted N.le l -> NoDup l -> StronglySorted N.lt l.
Proof.
  induction 1 as [|x l Hl IH Hx]; intros Hnd; [constructor|].
  apply NoDup_cons in Hnd as [Hnotin Hnd].
  constructor; [apply IH, Hnd|].
  apply Forall_forall. intros y Hy.
  pose proof (proj1 (Forall_forall _ _) Hx y Hy) as Hle.
  assert (x ≠ y) by (intros ->; contradiction).
  lia.
Qed.

(** The rows of an export are a faithful snapshot: the score rows are the
    entries of the ledger, each once, by strictly ascending node id, and the
    blacklist rows are the blacklisted nodes, each once, by strictly
    ascending id; every row carries the time of the export. *)
Lemma export_rows_are_the_ledger now (ts : gmap N float) (bl : gset N) :
  (exists entries,
      score_rows now ts = (fun e => ScoreRow now e.1 e.2) <$> entries
      /\ entries ≡ₚ map_to_list ts
      /\ StronglySorted (fun x y => x.1 < y.1) entries)
  /\ (exists nodes,
        blacklist_rows now bl = BlacklistRow now <$> nodes
        /\ nodes ≡ₚ elements bl
        /\ StronglySorted N.lt nodes)
  /\ (forall l, l ∈ score_rows now ts <-> exists n s, l = ScoreRow now n s /\ ts !! n = Some s)
  /\ (forall l, l ∈ blacklist_rows now bl <-> exists n, l = BlacklistRow now n /\ n ∈ bl).
Proof.
  split; [|split; [|split]].
  - exists (merge_sort key_le (map_to_list ts)).
    split; [reflexivity|]. split; [apply merge_sort_Permutation|].
    apply sorted_keys_strict; [apply StronglySorted_merge_sort; apply _|].
    rewrite merge_sort_Permutation. apply NoDup_fst_map_to_list.
  - exists (merge_sort N.le (elements bl)).
    split; [reflexivity|]. split; [apply merge_sort_Permutation|].
    apply sorted_nodes_strict; [apply StronglySorted_merge_sort; apply _|].
    rewrite merge_sort_Permutation. apply NoDup_elements.
  - intros l. unfold score_rows. rewrite list_elem_of_fmap. split.
    + intros ([n s] & -> & He). rewrite merge_sort_Permutation in He.
      apply elem_of_map_to_list in He. eauto.
    + intros (n & s & -> & Hs). exists (n, s). split; [reflexivity|].
      rewrite merge_sort_Permutation. apply elem_of_map_to_list, Hs.
  - intros l. unfold blacklist_rows. rewrite list_elem_of_fmap. split.
    + intros (n & -> & Hn). rewrite merge_sort_Permutation in Hn.
      apply elem_of_elements in Hn. eauto.
    + intros (n & -> & Hn). exists n. split; [reflexivity|].
      rewrite merge_sort_Permutation. apply elem_of_elements, Hn.
Qed.

(** X21: The header follows the process, not the file. A process that starts on
    a file that already holds lines appends one more header with its first
    successful export, whatever the file holds; and once a process has
    written the header, its exports write rows only, also into a file that
    has been emptied since. *)
Theorem header_follows_the_process file es :
  length (List.filter is_header (trust_scores_csv (run_exports (process_start file) es)))
  = (length (List.filter is_header file) + (if existsb exp_open es then 1 else 0))%nat
  /\ trust_scores_csv
       (run_exports {| headerWritten := true; trust_scores_csv := [] |} es)
     = flat_map data_rows es
  /\ (forall p, headerWritten p = true -> headerWritten (run_exports p es) = true).
Proof.
  split; [|split].
  - destruct (run_exports_log es (process_start file)) as [_ ->].
    cbn [process_start headerWritten trust_scores_csv negb andb].
    rewrite !List.filter_app, flat_map_data_rows_no_header, app_nil_r, length_app.
    destruct (existsb exp_open es); reflexivity.
  - destruct (run_exports_log es {| headerWritten := true; trust_scores_csv := [] |}) as [_ ->].
    reflexivity.
  - intros p Hp. destruct (run_exports_log es p) as [-> _]. rewrite Hp. reflexivity.
Qed.

Lemma round_as_exports now (trust_open : nat -> bool) (l : list (nat * option BlackholeAodv)) :
  forall p,
    foldl (fun p node =>
             match node.2 with
             | Some blackholeRouting =>
               LogTrustScores blackholeRouting now (trust_open node.1) p
             | None => p
             end) p l
    = run_exports p
        (omap (fun node =>
                 match node.2 with
                 | Some blackholeRouting =>
                   Some {| exp_instance := blackholeRouting; exp_now := now;
                           exp_open := trust_open node.1 |}
                 | None => None
                 end) l).
Proof.
  induction l as [|[i [r|]] l IH]; intros p; [reflexivity| |].
  - cbn [foldl omap list_omap snd fst]. rewrite IH. reflexivity.
  - cbn [foldl omap list_omap snd fst]. apply IH.
Qed.

(** X22: One round of [PeriodicTrustLogging]: the test log gets the time of the
    round if its file opens and is unchanged otherwise; the trust log gets
    what the exports of the nodes that carry a module give, in the order of
    the container, each at the time of the round: at most one header, and
    only if the process had written none; a node without module adds
    nothing; the next round is scheduled [interval] ahead whatever happened. *)
Theorem PeriodicTrustLogging_round nodeContainer interval now test_open trust_open
    (testLog : list float) (p : Process) :
  let result :=
    PeriodicTrustLogging nodeContainer interval now test_open trust_open (testLog, p) in
  let exports := round_exports nodeContainer now trust_open in
  result.1.1 = (if test_open then testLog ++ [now] else testLog)
  /\ result.1.2 = run_exports p exports
  /\ trust_scores_csv result.1.2
     = trust_scores_csv p
         ++ (if negb (headerWritten p) && existsb exp_open exports
             then [Literal header_text] else [])
         ++ flat_map data_rows exports
  /\ length exports
     = length (List.filter (fun node => match node with Some _ => true | None => false end)
                 nodeContainer)
  /\ delay result.2 = interval.
Proof.
  cbv zeta. unfold PeriodicTrustLogging, round_exports. cbn [fst snd delay].
  rewrite round_as_exports.
  split; [reflexivity|]. split; [reflexivity|].
  split; [apply run_exports_log|]. split; [|reflexivity].
  assert (H : forall g : nat -> option BlackholeAodv -> nat * option BlackholeAodv,
             (forall i node, (g i node).2 = node) ->
             length
               (omap (fun node : nat * option BlackholeAodv =>
                        match node.2 with
                        | Some blackholeRouting =>
                          Some {| exp_instance := blackholeRouting; exp_now := now;
                                  exp_open := trust_open node.1 |}
                        | None => None
                        end) (imap g nodeContainer))
             = length (List.filter
                         (fun node => match node with Some _ => true | None => false end)
                         nodeContainer)).
  { clear. induction nodeContainer as [|node l IH]; intros g Hg; [reflexivity|].
    rewrite imap_cons. cbn [omap list_omap List.filter]. rewrite Hg.
    destruct node; cbn [length]; [f_equal|]; apply IH; intros i node'; apply Hg. }
  apply H. reflexivity.
Qed.

End Snapshot.
